(** * The Wegue layer factory ([src/factory/Layer.js])

    A shallow embedding of [LayerFactory] and the properties of its
    construction table: which layer each configuration object yields, which
    identifier it carries, what the call writes to the configuration, and how
    a layer collection is assembled from its manifest. *)

From Stdlib Require Import String Ascii ZArith List.
From Stdlib Require Import Floats.SpecFloat.
From stdpp Require Import gmap strings list fin_maps.

Set Warnings "-register-all".
Local Open Scope string_scope.

(** ** Values of a configuration document *)

(** The values a configuration carries once its document is parsed. Numbers
    are IEEE-754 doubles; arrays and objects nest. A field that is absent
    reads as [VUndefined]. *)
Inductive value :=
| VUndefined
| VNull
| VBool (b : bool)
| VNum (x : spec_float)
| VStr (s : string)
| VArr (items : list value)
| VObj (props : gmap string value).

(** A layer configuration [lConf]: a plain object, own properties by name. *)
Abbreviation config := (gmap string value).

(** [lConf.k], for the names the factory reads (none of them is a property
    that plain objects inherit). *)
Definition field (k : string) (lConf : config) : value :=
  default VUndefined (lConf !! k).

(** ToBoolean: [undefined], [null], [false], [+0], [-0], [NaN] and the empty
    string are falsy, everything else is truthy. *)
Definition truthy (v : value) : bool :=
  match v with
  | VUndefined | VNull => false
  | VBool b => b
  | VNum (S754_zero _) | VNum S754_nan => false
  | VNum _ => true
  | VStr s => negb (String.eqb s "")
  | VArr _ | VObj _ => true
  end.

(** [a || b] *)
Definition or_else (a b : value) : value := if truthy a then a else b.

(** [v === 'literal'] against a string literal: no coercion. *)
Definition strictEq (v : value) (literal : string) : bool :=
  match v with
  | VStr s => String.eqb s literal
  | _ => false
  end.

Infix "===" := strictEq (at level 70, no associativity).

(** ** Errors, completions and promises *)

Inductive typeError :=
| NotAConstructor        (* [new f(...)] where [f] cannot construct *)
| NoPrimitiveValue.      (* an object with no usable [toString]/[valueOf] *)

Inductive error :=
| TypeError (why : typeError)
| FetchError (reason : string).   (* whatever [fetch] or [.json()] rejects with *)

(** Outcome of synchronous code: a value, or an exception. *)
Inductive completion (A : Type) :=
| Return (a : A)
| Throw (e : error).
Arguments Return {A} a.
Arguments Throw {A} e.

#[global] Instance completion_bind : MBind completion := fun A B k c =>
  match c with
  | Return a => k a
  | Throw e => Throw e
  end.

(** State of the promise an [async] function hands back. [Pending] is a
    promise that has not settled within the fuel given to the model. *)
Inductive promise (A : Type) :=
| Resolved (a : A)
| Rejected (e : error)
| Pending.
Arguments Resolved {A} a.
Arguments Rejected {A} e.
Arguments Pending {A}.

(** An exception inside an [async] function rejects its promise. *)
Definition settle {A} (c : completion A) : promise A :=
  match c with
  | Return a => Resolved a
  | Throw e => Rejected e
  end.

Definition promise_map {A B} (f : A -> B) (p : promise A) : promise B :=
  match p with
  | Resolved a => Resolved (f a)
  | Rejected e => Rejected e
  | Pending => Pending
  end.

(** ** Objects built by the factory *)

(** The constructors imported at the top of the module, and [Object], which
    every object literal inherits as its [constructor] property. *)
Inductive class :=
| TileLayer | TileWmsSource | OsmSource
| VectorTileLayer | VectorTileSource
| MvtFormat | GeoJsonFormat | TopoJsonFormat | KmlFormat
| VectorLayer | VectorSource | XyzSource
| ObjectCtor.

(** What the factory hands to the rendering library and returns: a value
    taken from the configuration, an object literal written in the factory,
    an instance [new c(args)], or the array [Promise.all] resolves to. The
    library's constructors are external: an instance is recorded by its
    class and the arguments it was built with. *)
Inductive obj :=
| Data (v : value)
| Literal (props : gmap string obj)
| New (c : class) (args : list obj)
| Arr (items : list obj).

(** The options literal a layer or source instance was built with. *)
Definition options (o : obj) : gmap string obj :=
  match o with
  | New _ (Literal props :: _) => props
  | _ => ∅
  end.

(** Reading one option back; a missing option reads as [undefined]. *)
Definition option_of (k : string) (o : obj) : obj :=
  default (Data VUndefined) (options o !! k).

(** The class of a layer's source, and the [params] literal of a WMS
    source. *)
Definition sourceClass (layer : obj) : option class :=
  match option_of "source" layer with
  | New c _ => Some c
  | _ => None
  end.

Definition wmsParams (layer : obj) : gmap string obj :=
  match option_of "params" (option_of "source" layer) with
  | Literal params => params
  | _ => ∅
  end.

Definition is_layer (o : obj) : bool :=
  match o with
  | New TileLayer _ | New VectorLayer _ | New VectorTileLayer _ => true
  | _ => false
  end.

(** ** The host environment *)

(** What the module takes from its surroundings.
    - [mathRandom36 n] is the string [Math.random().toString(36)] evaluates
      to at the [n]-th draw of the generator;
    - [fetchJson url] is [(await fetch(url)).json()]: the parsed manifest, a
      JSON array of configuration objects, or the rejection;
    - [styleInstance] is [OlStyleFactory.getInstance] of [./OlStyle];
    - [numberToString] is the decimal rendering of a number. *)
Record host := Host {
  mathRandom36 : nat -> string;
  fetchJson : value -> promise (list config);
  styleInstance : value -> obj;
  numberToString : spec_float -> string
}.

(** A base-36 digit, as [toString(36)] writes them. *)
Definition base36_digit (c : ascii) : bool :=
  let n := nat_of_ascii c in
  (Nat.leb 48 n && Nat.leb n 57) || (Nat.leb 97 n && Nat.leb n 122).

Fixpoint all_base36 (s : string) : bool :=
  match s with
  | EmptyString => true
  | String c rest => base36_digit c && all_base36 rest
  end.

(** The shapes [x.toString(36)] takes for a double [0 <= x < 1]: ["0"] for
    zero, otherwise ["0."] followed by at least one digit. *)
Definition rendering36 (s : string) : bool :=
  match s with
  | String "0" EmptyString => true
  | String "0" (String "." (String c rest)) => all_base36 (String c rest)
  | _ => false
  end.

Section Factory.

Context (h : host).

(** ** Property keys *)

(** ToString, as a computed member access [table[v]] applies it to its key.
    An array joins its elements with commas, [undefined] and [null] elements
    giving the empty string; a plain object gives ["[object Object]"] unless
    an own [toString] property, which is data and cannot be called, hides
    the inherited method. *)
Fixpoint toString (v : value) : completion string :=
  match v with
  | VUndefined => Return "undefined"
  | VNull => Return "null"
  | VBool true => Return "true"
  | VBool false => Return "false"
  | VNum x => Return (numberToString h x)
  | VStr s => Return s
  | VArr items =>
      (fix join (l : list value) : completion string :=
         match l with
         | [] => Return ""
         | x :: rest =>
             s ← match x with
                 | VUndefined | VNull => Return ""
                 | _ => toString x
                 end;
             match rest with
             | [] => Return s
             | _ => r ← join rest; Return (String.append s (String.append "," r))
             end
         end) items
  | VObj props =>
      match props !! "toString" with
      | Some _ => Throw (TypeError NoPrimitiveValue)
      | None => Return "[object Object]"
      end
  end.

(** ** [formatMapping] *)

(** Maps the format literal of the config to the corresponding OL module. *)
Definition formatMapping : gmap string class :=
  <["MVT" := MvtFormat]> (<["GeoJSON" := GeoJsonFormat]>
  (<["TopoJSON" := TopoJsonFormat]> (<["KML" := KmlFormat]> ∅))).

(** What a member access on an object literal can evaluate to. *)
Inductive member :=
| Constructor (c : class)
| NotConstructable      (* a built-in method, or the prototype object *)
| Undefined.

(** The properties an object literal inherits from [Object.prototype]. Only
    [constructor] can be used with [new]. *)
Definition objectPrototype (k : string) : member :=
  if String.eqb k "constructor" then Constructor ObjectCtor
  else if existsb (String.eqb k)
            ["__defineGetter__"; "__defineSetter__"; "__lookupGetter__";
             "__lookupSetter__"; "__proto__"; "hasOwnProperty";
             "isPrototypeOf"; "propertyIsEnumerable"; "toLocaleString";
             "toString"; "valueOf"]
       then NotConstructable
       else Undefined.

(** [this.formatMapping[key]]: the own property, else the inherited one. *)
Definition formatMapping_get (key : string) : member :=
  match formatMapping !! key with
  | Some c => Constructor c
  | None => objectPrototype key
  end.

(** [new m(args)] *)
Definition construct (m : member) (args : list obj) : completion obj :=
  match m with
  | Constructor c => Return (New c args)
  | NotConstructable | Undefined => Throw (TypeError NotAConstructor)
  end.

(** [new this.formatMapping[format](args)] *)
Definition newFormat (format : value) (args : list obj) : completion obj :=
  key ← toString format;
  construct (formatMapping_get key) args.

(** ** [randomId] *)

(** [Math.random().toString(36).substr(2, 5)] at draw [rng]: the characters
    at positions 2 to 6 of the rendering, fewer when it is shorter. *)
Definition randomId (rng : nat) : string * nat :=
  (String.substring 2 5 (mathRandom36 h rng), S rng).

(** ** The builders *)

(** An object literal [{k1: o1, ...}]. *)
Definition literal (props : list (string * obj)) : obj :=
  Literal (list_to_map props).

(** Returns an OpenLayers WMS layer instance due to given config. *)
Definition createWmsLayer (lConf : config) : obj :=
  New TileLayer [literal [
    ("name", Data (field "name" lConf));
    ("lid", Data (field "lid" lConf));
    ("displayInLayerList", Data (field "displayInLayerList" lConf));
    ("selectable", Data (or_else (field "selectable" lConf) (VBool false)));
    ("extent", Data (field "extent" lConf));
    ("visible", Data (field "visible" lConf));
    ("opacity", Data (field "opacity" lConf));
    ("source", New TileWmsSource [literal [
      ("url", Data (field "url" lConf));
      ("params", literal [
        ("LAYERS", Data (field "layers" lConf));
        ("TILED", Data (field "tiled" lConf))]);
      ("serverType", Data (field "serverType" lConf));
      ("attributions", Data (field "attributions" lConf))]])]].

(** Returns an XYZ based tile layer instance due to given config. *)
Definition createXyzLayer (lConf : config) : obj :=
  New TileLayer [literal [
    ("name", Data (field "name" lConf));
    ("lid", Data (field "lid" lConf));
    ("displayInLayerList", Data (field "displayInLayerList" lConf));
    ("selectable", Data (or_else (field "selectable" lConf) (VBool false)));
    ("visible", Data (field "visible" lConf));
    ("opacity", Data (field "opacity" lConf));
    ("source", New XyzSource [literal [
      ("url", Data (field "url" lConf))]])]].

(** Returns an OpenLayers OSM layer instance due to given config. *)
Definition createOsmLayer (lConf : config) : obj :=
  New TileLayer [literal [
    ("name", Data (field "name" lConf));
    ("lid", Data (field "lid" lConf));
    ("displayInLayerList", Data (field "displayInLayerList" lConf));
    ("selectable", Data (or_else (field "selectable" lConf) (VBool false)));
    ("visible", Data (field "visible" lConf));
    ("opacity", Data (field "opacity" lConf));
    ("source", New OsmSource [])]].

(** Returns an OpenLayers vector layer instance due to given config. The
    format is the one expression of the literal that can throw; the reads
    around it have no effect, so it is evaluated first here. *)
Definition createVectorLayer (lConf : config) : completion obj :=
  format ← newFormat (field "format" lConf) [Data (field "formatConfig" lConf)];
  Return (New VectorLayer [literal [
    ("name", Data (field "name" lConf));
    ("lid", Data (field "lid" lConf));
    ("displayInLayerList", Data (field "displayInLayerList" lConf));
    ("selectable", Data (or_else (field "selectable" lConf) (VBool false)));
    ("extent", Data (field "extent" lConf));
    ("visible", Data (field "visible" lConf));
    ("opacity", Data (field "opacity" lConf));
    ("source", New VectorSource [literal [
      ("url", Data (field "url" lConf));
      ("format", format);
      ("attributions", Data (field "attributions" lConf))]]);
    ("style", styleInstance h (field "style" lConf));
    ("styleSelected", styleInstance h (field "styleSelected" lConf));
    ("hoverable", Data (field "hoverable" lConf));
    ("hoverAttribute", Data (field "hoverAttribute" lConf))]]).

(** Returns an OpenLayers vector tile layer instance due to given config. *)
Definition createVectorTileLayer (lConf : config) : completion obj :=
  format ← newFormat (field "format" lConf) [];
  Return (New VectorTileLayer [literal [
    ("name", Data (field "name" lConf));
    ("lid", Data (field "lid" lConf));
    ("displayInLayerList", Data (field "displayInLayerList" lConf));
    ("selectable", Data (or_else (field "selectable" lConf) (VBool false)));
    ("visible", Data (field "visible" lConf));
    ("opacity", Data (field "opacity" lConf));
    ("source", New VectorTileSource [literal [
      ("url", Data (field "url" lConf));
      ("format", format);
      ("attributions", Data (field "attributions" lConf))]]);
    ("style", styleInstance h (field "style" lConf));
    ("hoverable", Data (field "hoverable" lConf));
    ("hoverAttribute", Data (field "hoverAttribute" lConf))]]).

(** ** Collections *)

(** [Promise.all]: resolved with every value, in the order of the promises,
    once all of them are resolved; rejected as soon as one is. Of several
    rejections the model reports the first in the order of the array, where
    the language reports the first in time: which error a collection with
    several failing entries carries is therefore not the program's in
    general, and the statements below speak of the rejection only. *)
Fixpoint promiseAll (ps : list (promise obj)) : promise (list obj) :=
  match ps with
  | [] => Resolved []
  | p :: rest =>
      match p, promiseAll rest with
      | Rejected e, _ => Rejected e
      | _, Rejected e => Rejected e
      | Pending, _ => Pending
      | _, Pending => Pending
      | Resolved a, Resolved l => Resolved (a :: l)
      end
  end.

(** What a run of [getInstance] leaves behind: the promise it returns, and
    the state it has written to, that is the configuration object it was
    given and the position of the random generator. *)
Definition run : Type := promise obj * (config * nat).

(** [response.map(async layerDef => ...)]: every callback runs in the order
    of the array, whether or not an earlier one has thrown. For an entry
    that is itself a collection the model runs the nested call to its end
    before the next callback, where the program suspends it at its fetch and
    resumes it once the remaining callbacks have run. The two agree on every
    manifest without a nested collection; with one, they differ in which
    draw of the generator a nested entry receives, and the statements below
    about the items of a collection are made for manifests without nested
    collections. The second component is the manifest as the callbacks
    leave it. *)
Fixpoint mapEntries (self : config -> nat -> run) (response : list config)
    (rng : nat) : list (promise obj) * (list config * nat) :=
  match response with
  | [] => ([], ([], rng))
  | layerDef :: rest =>
      let layerDef := <["lid" := field "name" layerDef]> layerDef in
      let '(p, (layerDef, rng)) := self layerDef rng in
      let '(ps, (rest, rng)) := mapEntries self rest rng in
      (p :: ps, (layerDef :: rest, rng))
  end.

(** Returns an array of Wegue Layer objects from given config. [self] is
    [this.getInstance]. The state returned is the fetched manifest after the
    callbacks have run, and the position of the random generator. *)
Definition createLayersFromCollection (self : config -> nat -> run)
    (lConf : config) (rng : nat) : promise obj * (list config * nat) :=
  match fetchJson h (field "url" lConf) with
  | Resolved response =>
      let '(ps, (response, rng)) := mapEntries self response rng in
      (promise_map Arr (promiseAll ps), (response, rng))
  | Rejected e => (Rejected e, ([], rng))
  | Pending => (Pending, ([], rng))
  end.

(** ** [getInstance] *)

(** Returns an OpenLayers layer instance due to given config. Fuel bounds
    the nesting of collections, each of which waits for a fetch; the other
    types use none. The random draws of nested collections are numbered
    depth-first (see [mapEntries]). *)
Fixpoint getInstance (fuel : nat) (lConf : config) (rng : nat) : run :=
  (* apply LID (Layer ID) if not existent *)
  let '(lConf, rng) :=
    if negb (truthy (field "lid" lConf))
    then let '(id, rng) := randomId rng in (<["lid" := VStr id]> lConf, rng)
    else (lConf, rng) in
  (* create correct layer type *)
  if field "type" lConf === "WMS" then
    (Resolved (createWmsLayer lConf), (lConf, rng))
  else if field "type" lConf === "XYZ" then
    (Resolved (createXyzLayer lConf), (lConf, rng))
  else if field "type" lConf === "OSM" then
    (Resolved (createOsmLayer lConf), (lConf, rng))
  else if field "type" lConf === "VECTOR" then
    (settle (createVectorLayer lConf), (lConf, rng))
  else if field "type" lConf === "VECTORTILE" then
    (settle (createVectorTileLayer lConf), (lConf, rng))
  else if field "type" lConf === "LAYERCOLLECTION" then
    match fuel with
    | O => (Pending, (lConf, rng))
    | S fuel =>
        let '(p, (_, rng)) :=
          createLayersFromCollection (getInstance fuel) lConf rng in
        (p, (lConf, rng))
    end
  else
    (Resolved (Data VNull), (lConf, rng)).

End Factory.

(** ** Notions the statements use *)

(** The first statement of [getInstance]: the configuration and the
    generator once the identifier has been applied. *)
Definition applyLid (h : host) (lConf : config) (rng : nat) : config * nat :=
  if truthy (field "lid" lConf) then (lConf, rng)
  else (<["lid" := VStr (randomId h rng).1]> lConf, S rng).

(** The layer types that are built on the spot. *)
Definition builderType (ty : value) : bool :=
  (ty === "WMS") || (ty === "XYZ") || (ty === "OSM")
  || (ty === "VECTOR") || (ty === "VECTORTILE").

(** Those of them whose source parses a format. *)
Definition vectorType (ty : value) : bool :=
  (ty === "VECTOR") || (ty === "VECTORTILE").

(** What [getInstance] resolves to for each of them, as a function of the
    configuration after the identifier was applied. *)
Definition built (h : host) (lConf : config) : promise obj :=
  if field "type" lConf === "WMS" then Resolved (createWmsLayer lConf)
  else if field "type" lConf === "XYZ" then Resolved (createXyzLayer lConf)
  else if field "type" lConf === "OSM" then Resolved (createOsmLayer lConf)
  else if field "type" lConf === "VECTOR" then settle (createVectorLayer h lConf)
  else settle (createVectorTileLayer h lConf).

(** The identifier a layer carries. *)
Definition lidOf (layer : obj) : value :=
  match option_of "lid" layer with
  | Data v => v
  | _ => VUndefined
  end.

(** [this.formatMapping[lConf.format]] is something [new] accepts. *)
Definition formatResolves (h : host) (lConf : config) : bool :=
  match toString h (field "format" lConf) with
  | Return key =>
      match formatMapping_get key with
      | Constructor _ => true
      | _ => false
      end
  | Throw _ => false
  end.

(** A rendering with at least five digits after the point. *)
Definition fiveDigits (r : string) : bool :=
  rendering36 r && Nat.leb 7 (String.length r).

(** The run resolves to a layer that carries a non-empty identifier: the
    configuration's own [lid] when that is truthy, and otherwise the string
    [randomId] returned, five base-36 characters long. *)
Definition identifiedLayer (h : host) (fuel : nat) (lConf : config) (rng : nat) : Prop :=
  exists layer,
    (getInstance h fuel lConf rng).1 = Resolved layer /\
    is_layer layer = true /\
    truthy (lidOf layer) = true /\
    if truthy (field "lid" lConf) then lidOf layer = field "lid" lConf
    else exists id, lidOf layer = VStr id /\ id = (randomId h rng).1 /\
                    String.length id = 5 /\ all_base36 id = true.

(** What the callback of a collection leaves of a manifest entry [e]: the
    field [k] is as it was, and [lid] holds the entry's name, or a drawn
    identifier when the name is falsy. *)
Definition entryWritten (h : host) (k : string) (e e' : config) : Prop :=
  e' !! k = e !! k /\
  (truthy (field "name" e) = true -> e' !! "lid" = Some (field "name" e)) /\
  (truthy (field "name" e) = false ->
   exists n, e' !! "lid" = Some (VStr (randomId h n).1)).

(** The promise the callback of a collection returns for the entry [e]:
    that of [getInstance] on the entry with its [lid] set to its name. *)
Definition entryOutcome (h : host) (fuel : nat) (e : config)
    (out : promise obj) : Prop :=
  exists n, out = (getInstance h fuel (<["lid" := field "name" e]> e) n).1.

(** Induction over values that reaches the items of an array. *)
Section value_induction.
Variable P : value -> Prop.
Hypothesis Hundefined : P VUndefined.
Hypothesis Hnull : P VNull.
Hypothesis Hbool : forall b, P (VBool b).
Hypothesis Hnum : forall x, P (VNum x).
Hypothesis Hstr : forall s, P (VStr s).
Hypothesis Harr : forall items, Forall P items -> P (VArr items).
Hypothesis Hobj : forall props, P (VObj props).

Fixpoint value_items_ind (v : value) : P v :=
  match v with
  | VUndefined => Hundefined
  | VNull => Hnull
  | VBool b => Hbool b
  | VNum x => Hnum x
  | VStr s => Hstr s
  | VArr items =>
      Harr items
        ((fix all (l : list value) : Forall P l :=
            match l with
            | [] => @List.Forall_nil _ P
            | x :: rest =>
                @List.Forall_cons _ P x rest (value_items_ind x) (all rest)
            end) items)
  | VObj props => Hobj props
  end.

End value_induction.

(** ** Sample hosts and configurations *)

(** A configuration written out field by field. *)
Definition conf (fields : list (string * value)) : config := list_to_map fields.

(** A host whose generator renders every draw as [rendering], whose network
    serves [manifest] at every address, and whose style factory returns
    [undefined]. None of the samples below has a number where a key is
    expected, so the rendering of numbers is never consulted; it is that of
    [NaN] throughout. *)
Definition sampleHost (rendering : string) (manifest : promise (list config)) : host :=
  {| mathRandom36 := fun _ => rendering;
     fetchJson := fun _ => manifest;
     styleInstance := fun _ => Data VUndefined;
     numberToString := fun _ => "NaN" |}.

(** A network that is down. *)
Definition offline : promise (list config) := Rejected (FetchError "offline").

(** A generator whose draws render with eleven digits. *)
Definition h0 : host := sampleHost "0.4fzyo82mvyr" offline.

(** [Math.random()] returning 0.5, which renders as ["0.i"], and 0. *)
Definition hHalf : host := sampleHost "0.i" offline.
Definition hZero : host := sampleHost "0" offline.

(** The manifest [[{name:"a",type:"OSM"},{name:"b",type:"OSM"}]]. *)
Definition twoBasemaps : list config :=
  [conf [("name", VStr "a"); ("type", VStr "OSM")];
   conf [("name", VStr "b"); ("type", VStr "OSM")]].

(** A host whose network serves [twoBasemaps]. *)
Definition hTwo : host := sampleHost "0.4fzyo82mvyr" (Resolved twoBasemaps).

(** The doubles 0, 10 and 0.5. *)
Definition zero : spec_float := S754_zero false.
Definition ten : spec_float := S754_finite false 5 1.
Definition half : spec_float := S754_finite false 1 (-1).

Definition basemap : config := conf [("type", VStr "OSM")].

Definition tiles : config :=
  conf [("type", VStr "XYZ"); ("lid", VStr "tiles");
        ("url", VStr "https://tiles.example/{z}/{x}/{y}.png");
        ("extent", VArr [VNum zero; VNum zero; VNum ten; VNum ten]);
        ("visible", VBool true); ("opacity", VNum half)].

Definition shapefile : config :=
  conf [("type", VStr "VECTOR"); ("format", VStr "Shapefile");
        ("lid", VStr "parcels")].

Definition objectFormat : config :=
  conf [("type", VStr "VECTOR"); ("format", VStr "constructor");
        ("formatConfig", VObj ∅); ("url", VStr "parcels.json");
        ("lid", VStr "parcels")].

Definition listedFormat : config :=
  conf [("type", VStr "VECTORTILE"); ("format", VArr [VStr "MVT"]);
        ("lid", VStr "tiles")].

Definition collection : config :=
  conf [("type", VStr "LAYERCOLLECTION"); ("url", VStr "layers.json");
        ("lid", VStr "overlays")].

Definition untyped : config :=
  conf [("name", VStr "no type given"); ("lid", VStr "x")].

Definition roads : config :=
  conf [("type", VStr "WMS"); ("layers", VStr "roads"); ("tiled", VBool true);
        ("url", VStr "https://maps.example/wms")].

Definition unselectable : config :=
  conf [("type", VStr "VECTORTILE"); ("format", VStr "MVT");
        ("lid", VStr "tiles"); ("selectable", VNum zero);
        ("name", VStr "Tiles")].

Definition elsewhere : config :=
  <["url" := VStr "https://elsewhere.example"]> basemap.


Definition vectorTiles : config :=
  conf [("type", VStr "VECTORTILE"); ("format", VStr "MVT")].

(** ** Notions of the further properties *)

(** Two configurations hold the same value, or both none, under every name
    of [ks]. *)
Definition agreeOn (ks : list string) (c1 c2 : config) : Prop :=
  forall k, k ∈ ks -> c1 !! k = c2 !! k.

(** The fields each branch of [getInstance] reads, besides [lid] and
    [type] which the function itself reads. *)
Definition fieldsRead (ty : value) : list string :=
  if ty === "WMS" then
    ["name"; "displayInLayerList"; "selectable"; "extent"; "visible";
     "opacity"; "url"; "layers"; "tiled"; "serverType"; "attributions"]
  else if ty === "XYZ" then
    ["name"; "displayInLayerList"; "selectable"; "visible"; "opacity"; "url"]
  else if ty === "OSM" then
    ["name"; "displayInLayerList"; "selectable"; "visible"; "opacity"]
  else if ty === "VECTOR" then
    ["name"; "displayInLayerList"; "selectable"; "extent"; "visible";
     "opacity"; "url"; "format"; "formatConfig"; "attributions"; "style";
     "styleSelected"; "hoverable"; "hoverAttribute"]
  else if ty === "VECTORTILE" then
    ["name"; "displayInLayerList"; "selectable"; "visible"; "opacity"; "url";
     "format"; "attributions"; "style"; "hoverable"; "hoverAttribute"]
  else if ty === "LAYERCOLLECTION" then ["url"]
  else [].

(** The host [h] with another generator and another network. *)
Definition withRandomAndFetch (h : host) (random : nat -> string)
    (fetch : value -> promise (list config)) : host :=
  {| mathRandom36 := random;
     fetchJson := fetch;
     styleInstance := styleInstance h;
     numberToString := numberToString h |}.

(** The class of a layer. *)
Definition layerClass (layer : obj) : option class :=
  match layer with
  | New c _ => Some c
  | _ => None
  end.

(** The entries of a manifest that have no usable name. *)
Definition nameless (manifest : list config) : list config :=
  filter (fun e => truthy (field "name" e) = false) manifest.

(** The value a call resolves to has the shape its [type] asks for: a
    layer, the array of a collection, or [null]. *)
Definition shapedBy (ty : value) (v : obj) : Prop :=
  (builderType ty = true /\ is_layer v = true) \/
  ((ty === "LAYERCOLLECTION") = true /\ exists items, v = Arr items) \/
  (builderType ty = false /\ (ty === "LAYERCOLLECTION") = false /\
   v = Data VNull).

(** ** Further samples *)

(** A manifest with a layer, an entry of no known type and a nameless
    basemap. *)
Definition mixed : list config :=
  [conf [("name", VStr "a"); ("type", VStr "OSM")];
   conf [("name", VStr "note"); ("type", VStr "TEXT")];
   conf [("type", VStr "OSM")]].

Definition hMixed : host := sampleHost "0.4fzyo82mvyr" (Resolved mixed).

(** A manifest whose second entry names a format that does not exist. *)
Definition broken : list config :=
  [conf [("name", VStr "a"); ("type", VStr "OSM")];
   conf [("name", VStr "parcels"); ("type", VStr "VECTOR");
         ("format", VStr "Shapefile")]].

Definition hBroken : host := sampleHost "0.4fzyo82mvyr" (Resolved broken).

(** A generator that renders 0.5, and the manifest [twoBasemaps]. *)
Definition hOther : host :=
  withRandomAndFetch h0 (fun _ => "0.i") (fun _ => Resolved twoBasemaps).

(** A styled vector layer, and a vector tile layer with and without the
    fields its builder does not read. *)
Definition styled : config :=
  conf [("type", VStr "VECTOR"); ("lid", VStr "parcels");
        ("format", VStr "GeoJSON"); ("url", VStr "parcels.json");
        ("style", VObj (conf [("strokeColor", VStr "red")]));
        ("hoverable", VBool true); ("hoverAttribute", VStr "owner")].

Definition tiled : config :=
  conf [("type", VStr "VECTORTILE"); ("lid", VStr "tiles");
        ("format", VStr "MVT"); ("formatConfig", VObj ∅);
        ("styleSelected", VObj ∅); ("extent", VArr [])].

Definition tiledPlain : config :=
  conf [("type", VStr "VECTORTILE"); ("lid", VStr "tiles");
        ("format", VStr "MVT")].

(** ** Tactics *)

(** The five builders seen from a layer they have produced. *)
Ltac layer_cases H :=
  unfold built, createVectorLayer, createVectorTileLayer,
    mbind, completion_bind in H;
  repeat match type of H with
         | context [if ?b then _ else _] => destruct b eqn:?
         | context [match newFormat ?h ?f ?a with _ => _ end] =>
             destruct (newFormat h f a) eqn:?
         end;
  simpl in H; simplify_eq.

(** ** Reading the dispatch *)

Lemma strictEq_true (v : value) (s : string) : (v === s) = true <-> v = VStr s.
Proof.
  destruct v; simpl; try (split; [discriminate | congruence]).
  rewrite String.eqb_eq. split; congruence.
Qed.

Lemma field_insert_ne (k k' : string) (v : value) (lConf : config) :
  k' <> k -> field k (<[k' := v]> lConf) = field k lConf.
Proof. intros Hne. unfold field. by rewrite lookup_insert_ne. Qed.

Lemma field_insert_eq (k : string) (v : value) (lConf : config) :
  field k (<[k := v]> lConf) = v.
Proof. unfold field. by rewrite lookup_insert_eq. Qed.

Lemma applyLid_type h lConf rng :
  field "type" (applyLid h lConf rng).1 = field "type" lConf.
Proof.
  unfold applyLid. destruct (truthy _); simpl; [done |].
  by apply field_insert_ne.
Qed.

Lemma applyLid_lid h lConf rng :
  field "lid" (applyLid h lConf rng).1 =
  if truthy (field "lid" lConf) then field "lid" lConf
  else VStr (randomId h rng).1.
Proof.
  unfold applyLid. destruct (truthy _); simpl; [done |].
  apply field_insert_eq.
Qed.

Lemma applyLid_other h lConf rng (k : string) :
  k <> "lid" -> (applyLid h lConf rng).1 !! k = lConf !! k.
Proof.
  intros Hne. unfold applyLid. destruct (truthy _); simpl; [done |].
  by rewrite lookup_insert_ne.
Qed.

Lemma builderType_intro (ty : value) (s : string) :
  (ty === s) = true ->
  s ∈ ["WMS"; "XYZ"; "OSM"; "VECTOR"; "VECTORTILE"] ->
  builderType ty = true.
Proof.
  intros ->%strictEq_true Hs.
  repeat (apply elem_of_cons in Hs as [-> | Hs]); try reflexivity.
  by apply elem_of_nil in Hs.
Qed.

Lemma getInstance_builder h fuel lConf rng :
  builderType (field "type" lConf) = true ->
  getInstance h fuel lConf rng =
  (built h (applyLid h lConf rng).1, applyLid h lConf rng).
Proof.
  intros Hty.
  pose proof (applyLid_type h lConf rng) as Hsame.
  unfold built, builderType in *. rewrite Hsame.
  unfold applyLid in *.
  destruct fuel; simpl; destruct (truthy (field "lid" lConf)); simpl in *;
    rewrite ?Hsame;
    repeat (destruct (field "type" lConf === _); simpl in *; try done).
Qed.

Lemma getInstance_collection h fuel lConf rng :
  (field "type" lConf === "LAYERCOLLECTION") = true ->
  getInstance h (S fuel) lConf rng =
  let '(lConf', rng') := applyLid h lConf rng in
  let '(p, (_, rng'')) :=
    createLayersFromCollection h (getInstance h fuel) lConf' rng' in
  (p, (lConf', rng'')).
Proof.
  intros Hty%strictEq_true.
  pose proof (applyLid_type h lConf rng) as Hsame.
  unfold applyLid in *.
  simpl; destruct (truthy (field "lid" lConf)); simpl in *;
    rewrite ?Hsame, Hty; reflexivity.
Qed.

Lemma getInstance_other h fuel lConf rng :
  builderType (field "type" lConf) = false ->
  (field "type" lConf === "LAYERCOLLECTION") = false ->
  getInstance h fuel lConf rng = (Resolved (Data VNull), applyLid h lConf rng).
Proof.
  intros Hty Hcoll.
  pose proof (applyLid_type h lConf rng) as Hsame.
  unfold builderType, applyLid in *.
  destruct fuel; simpl; destruct (truthy (field "lid" lConf)); simpl in *;
    rewrite ?Hsame, ?Hcoll;
    repeat (destruct (field "type" lConf === _); simpl in *; try done).
Qed.

(** ** Types outside the table *)

(** C2: a configuration whose [type] is none of the six known names, an
    absent [type] included, makes [getInstance] resolve to [null]; nothing
    is thrown and the promise is not rejected. *)
Theorem getInstance_unknown_type h fuel lConf rng :
  (forall s, s ∈ ["WMS"; "XYZ"; "OSM"; "VECTOR"; "VECTORTILE"; "LAYERCOLLECTION"] ->
             field "type" lConf <> VStr s) ->
  (getInstance h fuel lConf rng).1 = Resolved (Data VNull).
Proof.
  intros Hnone.
  assert (Hno : forall s,
             s ∈ ["WMS"; "XYZ"; "OSM"; "VECTOR"; "VECTORTILE"; "LAYERCOLLECTION"] ->
             (field "type" lConf === s) = false).
  { intros s Hs. destruct (field "type" lConf === s) eqn:E; [| done].
    apply strictEq_true in E. by destruct (Hnone s Hs). }
  rewrite getInstance_other; [done | |].
  - unfold builderType. rewrite !Hno; [done | set_solver ..].
  - apply Hno. set_solver.
Qed.

Lemma getInstance_unknown_type_witness :
  (forall s, s ∈ ["WMS"; "XYZ"; "OSM"; "VECTOR"; "VECTORTILE"; "LAYERCOLLECTION"] ->
             field "type" untyped <> VStr s) /\
  (getInstance h0 0 untyped 0).1 = Resolved (Data VNull).
Proof.
  assert (Hnone : forall s,
             s ∈ ["WMS"; "XYZ"; "OSM"; "VECTOR"; "VECTORTILE"; "LAYERCOLLECTION"] ->
             field "type" untyped <> VStr s).
  { intros s Hs. vm_compute. discriminate. }
  split; [exact Hnone |].
  exact (getInstance_unknown_type h0 0 untyped 0 Hnone).
Defined.

(** [type: "UNKNOWN"] resolves to [null], whatever the fuel. *)
Example getInstance_UNKNOWN fuel :
  (getInstance h0 fuel (conf [("type", VStr "UNKNOWN")]) 0).1 = Resolved (Data VNull).
Proof. by rewrite getInstance_other. Qed.

(** ** What the builders pass on *)

(** C8: the source of a WMS layer takes its query parameters from the
    configuration, [LAYERS] from [layers] and [TILED] from [tiled]; with
    [layers: "roads"] and [tiled: true] they are [roads] and [true]. *)
Theorem wms_params_from_config h fuel lConf rng :
  (field "type" lConf === "WMS") = true ->
  exists layer,
    (getInstance h fuel lConf rng).1 = Resolved layer /\
    is_layer layer = true /\
    sourceClass layer = Some TileWmsSource /\
    wmsParams layer !! "LAYERS" = Some (Data (field "layers" lConf)) /\
    wmsParams layer !! "TILED" = Some (Data (field "tiled" lConf)) /\
    (field "layers" lConf = VStr "roads" -> field "tiled" lConf = VBool true ->
     wmsParams layer !! "LAYERS" = Some (Data (VStr "roads")) /\
     wmsParams layer !! "TILED" = Some (Data (VBool true))).
Proof.
  intros Hty.
  rewrite getInstance_builder by (eapply builderType_intro; [done | set_solver]).
  unfold built. rewrite applyLid_type, Hty. simpl.
  set (c := (applyLid h lConf rng).1).
  assert (Hl : field "layers" c = field "layers" lConf).
  { unfold field, c. by rewrite applyLid_other. }
  assert (Ht : field "tiled" c = field "tiled" lConf).
  { unfold field, c. by rewrite applyLid_other. }
  eexists. split; [reflexivity |]. split; [reflexivity |].
  split; [reflexivity |].
  rewrite <- Hl, <- Ht.
  split; [reflexivity |]. split; [reflexivity |].
  intros <- <-. split; reflexivity.
Qed.

Lemma wms_params_from_config_witness :
  (field "type" roads === "WMS") = true /\
  field "layers" roads = VStr "roads" /\ field "tiled" roads = VBool true /\
  exists layer,
    (getInstance h0 0 roads 0).1 = Resolved layer /\
    wmsParams layer !! "LAYERS" = Some (Data (VStr "roads")) /\
    wmsParams layer !! "TILED" = Some (Data (VBool true)).
Proof.
  split; [reflexivity |]. split; [reflexivity |]. split; [reflexivity |].
  destruct (wms_params_from_config h0 0 roads 0 eq_refl)
    as (layer & Hrun & _ & _ & _ & _ & Hroads).
  exists layer. split; [exact Hrun |].
  exact (Hroads eq_refl eq_refl).
Defined.

Lemma applyLid_field h lConf rng (k : string) :
  k <> "lid" -> field k (applyLid h lConf rng).1 = field k lConf.
Proof. intros Hne. unfold field. by rewrite applyLid_other. Qed.

Lemma built_layer h lConf :
  builderType (field "type" lConf) = true ->
  (vectorType (field "type" lConf) = true -> formatResolves h lConf = true) ->
  exists layer, built h lConf = Resolved layer /\ is_layer layer = true /\
                lidOf layer = field "lid" lConf.
Proof.
  unfold builderType, vectorType, built, formatResolves.
  intros Hty Hfmt.
  unfold createVectorLayer, createVectorTileLayer, newFormat,
    mbind, completion_bind.
  repeat (destruct (field "type" lConf === _); simpl in *;
          try (eexists; repeat split; reflexivity));
    try done;
    specialize (Hfmt eq_refl);
    destruct (toString h (field "format" lConf)); try done;
    destruct (formatMapping_get _); try done; simpl;
    eexists; repeat split; reflexivity.
Qed.

Lemma applyLid_formatResolves h lConf rng :
  formatResolves h (applyLid h lConf rng).1 = formatResolves h lConf.
Proof. unfold formatResolves. by rewrite applyLid_field. Qed.

(** A configuration of one of the five builder types, whose format
    resolves when the type is VECTOR or VECTORTILE, makes every builder
    return: the call resolves to a layer. *)
Lemma getInstance_produces h fuel lConf rng :
  builderType (field "type" lConf) = true ->
  (vectorType (field "type" lConf) = true -> formatResolves h lConf = true) ->
  exists layer,
    (getInstance h fuel lConf rng).1 = Resolved layer /\ is_layer layer = true.
Proof.
  intros Hty Hfmt.
  destruct (built_layer h (applyLid h lConf rng).1) as (layer & Hrun & Hlayer & _).
  { by rewrite applyLid_type. }
  { by rewrite applyLid_type, applyLid_formatResolves. }
  exists layer. by rewrite getInstance_builder.
Qed.

(** C10: a configuration of one of the five builder types, whose format
    resolves when the type is VECTOR or VECTORTILE, yields a layer; and in
    every layer produced from a configuration of these types, [selectable]
    is [false] when the configuration's value is absent or falsy and is
    that value when it is truthy, while [visible], [opacity] and [name] are
    copied as they are, with no default. *)
Theorem selectable_defaults_to_false h fuel lConf rng :
  builderType (field "type" lConf) = true ->
  ((vectorType (field "type" lConf) = true -> formatResolves h lConf = true) ->
   exists layer,
     (getInstance h fuel lConf rng).1 = Resolved layer /\ is_layer layer = true) /\
  (forall layer,
     (getInstance h fuel lConf rng).1 = Resolved layer ->
     option_of "selectable" layer =
       Data (if truthy (field "selectable" lConf)
             then field "selectable" lConf else VBool false) /\
     (field "selectable" lConf ∈
        [VUndefined; VNull; VBool false; VNum (S754_zero false); VStr ""] ->
      option_of "selectable" layer = Data (VBool false)) /\
     option_of "visible" layer = Data (field "visible" lConf) /\
     option_of "opacity" layer = Data (field "opacity" lConf) /\
     option_of "name" layer = Data (field "name" lConf)).
Proof.
  intros Hty. split; [by apply getInstance_produces |].
  intros layer Hrun.
  rewrite getInstance_builder in Hrun by done. simpl in Hrun.
  rewrite <- (applyLid_field h lConf rng "selectable") by done.
  rewrite <- (applyLid_field h lConf rng "visible") by done.
  rewrite <- (applyLid_field h lConf rng "opacity") by done.
  rewrite <- (applyLid_field h lConf rng "name") by done.
  set (c := (applyLid h lConf rng).1) in *.
  assert (Hsel : option_of "selectable" layer =
                 Data (or_else (field "selectable" c) (VBool false))).
  { layer_cases Hrun; reflexivity. }
  split; [exact Hsel |].
  split.
  { rewrite Hsel. unfold or_else. intros Hin.
    repeat (apply elem_of_cons in Hin as [-> | Hin]); try reflexivity.
    by apply elem_of_nil in Hin. }
  layer_cases Hrun; repeat split; reflexivity.
Qed.

Lemma selectable_defaults_to_false_witness :
  builderType (field "type" unselectable) = true /\
  (vectorType (field "type" unselectable) = true ->
   formatResolves h0 unselectable = true) /\
  exists layer,
    (getInstance h0 0 unselectable 0).1 = Resolved layer /\
    is_layer layer = true /\
    option_of "selectable" layer = Data (VBool false) /\
    option_of "visible" layer = Data VUndefined /\
    option_of "name" layer = Data (VStr "Tiles").
Proof.
  destruct (selectable_defaults_to_false h0 0 unselectable 0 eq_refl)
    as [Hproduced Hoptions].
  destruct (Hproduced (fun _ => eq_refl)) as (layer & Hrun & Hlayer).
  destruct (Hoptions layer Hrun) as (Hsel & _ & Hvis & _ & Hname).
  split; [reflexivity |]. split; [reflexivity |].
  exists layer. split; [exact Hrun |]. split; [exact Hlayer |].
  split; [exact Hsel |]. split; [exact Hvis | exact Hname].
Defined.

Lemma applyLid_agree h c1 c2 rng (skip : string) :
  skip <> "lid" ->
  (forall k, k <> skip -> c1 !! k = c2 !! k) ->
  (forall k, k <> skip ->
     field k (applyLid h c1 rng).1 = field k (applyLid h c2 rng).1) /\
  (applyLid h c1 rng).2 = (applyLid h c2 rng).2.
Proof.
  intros Hskip Hagree.
  assert (Hlid : field "lid" c1 = field "lid" c2).
  { unfold field. by rewrite Hagree. }
  unfold applyLid. rewrite Hlid.
  destruct (truthy (field "lid" c2)); simpl; split; try done.
  - intros k Hk. unfold field. by rewrite Hagree.
  - intros k Hk. unfold field. rewrite !lookup_insert.
    case_decide; [done |]. by rewrite Hagree.
Qed.

(** C9: two OSM configurations that agree on every field but [url] yield
    the same layer (from the same position of the generator); setting [url]
    to any value changes nothing, and the source is a bare [OsmSource]. *)
Theorem osm_ignores_url h fuel c1 c2 rng :
  (field "type" c1 === "OSM") = true ->
  (forall k, k <> "url" -> c1 !! k = c2 !! k) ->
  (getInstance h fuel c1 rng).1 = (getInstance h fuel c2 rng).1 /\
  (getInstance h fuel c1 rng).2.2 = (getInstance h fuel c2 rng).2.2 /\
  exists layer,
    (getInstance h fuel c1 rng).1 = Resolved layer /\
    is_layer layer = true /\
    option_of "source" layer = New OsmSource [].
Proof.
  intros Hty1 Hagree.
  assert (Hty2 : (field "type" c2 === "OSM") = true).
  { unfold field in *. by rewrite <- Hagree. }
  destruct (applyLid_agree h c1 c2 rng "url") as [Hfields Hrng]; [done .. |].
  rewrite !getInstance_builder by (eapply builderType_intro; [done | set_solver]).
  unfold built. rewrite !applyLid_type. simpl.
  apply strictEq_true in Hty1, Hty2. rewrite Hty1, Hty2. simpl.
  split; [| split; [done |]].
  - unfold createOsmLayer. by rewrite !Hfields.
  - eexists. repeat split; reflexivity.
Qed.

Lemma osm_ignores_url_witness :
  (field "type" basemap === "OSM") = true /\
  (forall k, k <> "url" -> basemap !! k = elsewhere !! k) /\
  (getInstance h0 0 basemap 0).1 = (getInstance h0 0 elsewhere 0).1.
Proof.
  assert (Hagree : forall k, k <> "url" -> basemap !! k = elsewhere !! k).
  { intros k Hk. unfold elsewhere. by rewrite lookup_insert_ne. }
  split; [reflexivity |]. split; [exact Hagree |].
  exact (proj1 (osm_ignores_url h0 0 basemap elsewhere 0 eq_refl Hagree)).
Defined.



(** ** Identifiers *)

Lemma substring_length_le (n m : nat) (s : string) :
  String.length (String.substring n m s) <= m.
Proof.
  revert n m. induction s as [| c s IH]; intros [| n] [| m]; simpl; try lia.
  - specialize (IH 0 m). lia.
  - apply IH.
  - apply IH.
Qed.

Lemma substring_length_full (n m : nat) (s : string) :
  n + m <= String.length s -> String.length (String.substring n m s) = m.
Proof.
  revert n m. induction s as [| c s IH]; intros [| n] [| m]; simpl; try lia.
  - intros Hlen. rewrite IH; lia.
  - intros Hlen. apply IH. lia.
  - intros Hlen. apply IH. lia.
Qed.

Lemma substring_all_base36 (n m : nat) (s : string) :
  all_base36 s = true -> all_base36 (String.substring n m s) = true.
Proof.
  revert n m. induction s as [| c s IH]; intros [| n] [| m]; simpl; try done.
  - intros [Hc Hs]%andb_true_iff. rewrite Hc. simpl. by apply IH.
  - intros [Hc Hs]%andb_true_iff. by apply IH.
  - intros [Hc Hs]%andb_true_iff. by apply IH.
Qed.

Lemma rendering36_cases (r : string) :
  rendering36 r = true ->
  r = "0" \/ exists digits, r = String "0" (String "." digits) /\
                            digits <> "" /\ all_base36 digits = true.
Proof.
  destruct r as [| a [| b [| c rest]]]; simpl; try done.
  - destruct a as [[] [] [] [] [] [] [] []]; try done. by left.
  - destruct a as [[] [] [] [] [] [] [] []]; try done.
    destruct b as [[] [] [] [] [] [] [] []]; done.
  - intros Hr. right. exists (String c rest).
    destruct a as [[] [] [] [] [] [] [] []]; try done.
    destruct b as [[] [] [] [] [] [] [] []]; try done.
Qed.

(** The identifier drawn at [rng] has at most five characters; they are
    base-36 digits when the rendering is well formed, and there are exactly
    five of them when the rendering has five digits after the point. *)
Lemma randomId_shape h rng :
  let id := (randomId h rng).1 in
  let r := mathRandom36 h rng in
  String.length id <= 5 /\
  (rendering36 r = true -> all_base36 id = true) /\
  (7 <= String.length r -> String.length id = 5).
Proof.
  simpl. split; [apply substring_length_le |]. split.
  - intros [-> | (digits & -> & _ & Hd)]%rendering36_cases; [done |].
    simpl. by apply substring_all_base36.
  - intros Hlen. apply substring_length_full. lia.
Qed.

Lemma truthy_VStr (s : string) : truthy (VStr s) = true <-> s <> "".
Proof.
  simpl. rewrite negb_true_iff. split.
  - intros Hne ->. done.
  - intros Hne. by apply String.eqb_neq.
Qed.

(** C1, amended: for a configuration of one of the five builder types,
    whose [format] resolves to a constructor when the type is VECTOR or
    VECTORTILE, [getInstance] resolves to a layer whose [lid] is the
    configuration's [lid] when that is truthy and is otherwise the string
    returned by [randomId]; when the [lid] is given, or the random number
    renders with at least five base-36 digits, the identifier is non-empty
    and, if generated, five base-36 characters long. *)
Theorem getInstance_identifies h fuel lConf rng :
  builderType (field "type" lConf) = true ->
  (vectorType (field "type" lConf) = true -> formatResolves h lConf = true) ->
  (exists layer,
     (getInstance h fuel lConf rng).1 = Resolved layer /\
     is_layer layer = true /\
     lidOf layer = if truthy (field "lid" lConf) then field "lid" lConf
                   else VStr (randomId h rng).1) /\
  (truthy (field "lid" lConf) = true \/ fiveDigits (mathRandom36 h rng) = true ->
   identifiedLayer h fuel lConf rng).
Proof.
  intros Hty Hfmt.
  destruct (built_layer h (applyLid h lConf rng).1) as (layer & Hrun & Hlayer & Hlid).
  { by rewrite applyLid_type. }
  { by rewrite applyLid_type, applyLid_formatResolves. }
  rewrite applyLid_lid in Hlid.
  assert (Hres : (getInstance h fuel lConf rng).1 = Resolved layer).
  { by rewrite getInstance_builder. }
  split; [by exists layer |].
  intros Hcase. exists layer. split; [done |]. split; [done |].
  rewrite Hlid.
  destruct (truthy (field "lid" lConf)) eqn:Hgiven; [done |].
  destruct Hcase as [| [Hr Hlen%Nat.leb_le]%andb_true_iff]; [done |].
  destruct (randomId_shape h rng) as (_ & Hdigits & Hfive).
  specialize (Hdigits Hr). specialize (Hfive Hlen).
  split; [| by eexists].
  apply truthy_VStr. intros Hempty. rewrite Hempty in Hfive. done.
Qed.

(** C1, as stated, fails: a VECTOR configuration naming a format outside
    the table yields no layer, and an OSM configuration without [lid]
    receives the one-character identifier ["i"] when the random number is
    0.5 and the empty identifier when it is 0. *)
Lemma getInstance_identifies_counterexample :
  (builderType (field "type" shapefile) = true /\
   ~ identifiedLayer h0 0 shapefile 0) /\
  (builderType (field "type" basemap) = true /\
   rendering36 (mathRandom36 hHalf 0) = true /\
   ~ identifiedLayer hHalf 0 basemap 0) /\
  (rendering36 (mathRandom36 hZero 0) = true /\
   ~ identifiedLayer hZero 0 basemap 0).
Proof.
  split; [| split].
  - split; [reflexivity |].
    intros (layer & Hrun & _). vm_compute in Hrun. discriminate.
  - split; [reflexivity |]. split; [reflexivity |].
    intros (layer & Hrun & _ & _ & Hid).
    vm_compute in Hrun. injection Hrun as <-.
    vm_compute in Hid. destruct Hid as (id & [= <-] & _ & Hlen & _).
    discriminate.
  - split; [reflexivity |].
    intros (layer & Hrun & _ & Hlid & _).
    vm_compute in Hrun. injection Hrun as <-.
    vm_compute in Hlid. discriminate.
Qed.

Lemma getInstance_identifies_witness :
  builderType (field "type" vectorTiles) = true /\
  (vectorType (field "type" vectorTiles) = true ->
   formatResolves h0 vectorTiles = true) /\
  fiveDigits (mathRandom36 h0 0) = true /\
  (exists layer,
     (getInstance h0 0 vectorTiles 0).1 = Resolved layer /\
     is_layer layer = true /\ lidOf layer = VStr "4fzyo") /\
  identifiedLayer h0 0 vectorTiles 0.
Proof.
  destruct (getInstance_identifies h0 0 vectorTiles 0 eq_refl (fun _ => eq_refl))
    as [Hlayer Hidentified].
  split; [reflexivity |]. split; [reflexivity |]. split; [reflexivity |].
  split; [exact Hlayer |].
  exact (Hidentified (or_intror eq_refl)).
Defined.

(** ** Formats *)

(** The only exception a key conversion raises. *)
Lemma toString_throw h (v : value) (e : error) :
  toString h v = Throw e -> e = TypeError NoPrimitiveValue.
Proof.
  revert e. induction v as [| | b | x | s | items IH | props]
    using value_items_ind; intros e; simpl; try discriminate.
  - destruct b; discriminate.
  - induction IH as [| x rest Hx _ IHrest]; [discriminate |].
    assert (Helem : forall e',
      match x with
      | VUndefined | VNull => Return ""
      | _ => toString h x
      end = Throw e' -> e' = TypeError NoPrimitiveValue).
    { destruct x; try discriminate; apply Hx. }
    revert Helem. 
    match goal with |- context [mbind _ ?c] => generalize c end.
    intros [s | e'] Helem; simpl.
    + destruct rest as [| y rest]; [discriminate |].
      match goal with |- context [mbind _ ?c] => destruct c eqn:Hj end; simpl; [discriminate |].
      intros [= <-]. by apply IHrest.
    + intros [= <-]. by apply Helem.
  - destruct (props !! "toString"); [| discriminate]. by intros [= <-].
Qed.

(** C7, as stated, fails: [constructor] is not a name of the table, yet
    the table object inherits it and [new Object(formatConfig)] succeeds, so
    a layer is returned; and a [format] that is not a string but converts to
    the key of an entry, such as the array [["MVT"]], selects that entry. *)
Lemma unknown_format_counterexample :
  (vectorType (field "type" objectFormat) = true /\
   (forall name, name ∈ ["MVT"; "GeoJSON"; "TopoJSON"; "KML"] ->
                 field "format" objectFormat <> VStr name) /\
   exists layer,
     (getInstance h0 0 objectFormat 0).1 = Resolved layer /\
     is_layer layer = true /\
     option_of "format" (option_of "source" layer) =
       New ObjectCtor [Data (VObj ∅)]) /\
  (vectorType (field "type" listedFormat) = true /\
   (forall name, name ∈ ["MVT"; "GeoJSON"; "TopoJSON"; "KML"] ->
                 field "format" listedFormat <> VStr name) /\
   exists layer,
     (getInstance h0 0 listedFormat 0).1 = Resolved layer /\
     is_layer layer = true /\
     option_of "format" (option_of "source" layer) = New MvtFormat []).
Proof.
  split.
  - split; [reflexivity |]. split.
    + intros name Hin. vm_compute. intros [= <-].
      repeat (apply elem_of_cons in Hin as [[=] | Hin]).
      by apply elem_of_nil in Hin.
    + eexists. split; [vm_compute; reflexivity |]. split; reflexivity.
  - split; [reflexivity |]. split.
    + intros name Hin. vm_compute. discriminate.
    + eexists. split; [vm_compute; reflexivity |]. split; reflexivity.
Qed.

(** C7, amended: for a VECTOR or VECTORTILE configuration whose [format],
    converted to a property key, is none of MVT, GeoJSON, TopoJSON, KML and
    is not [constructor] either, construction throws a TypeError, for want
    of a constructor whenever the conversion itself succeeds, and the
    promise is rejected: no layer is returned. *)
Theorem unknown_format_rejects h fuel lConf rng :
  vectorType (field "type" lConf) = true ->
  (forall key, toString h (field "format" lConf) = Return key ->
               key ∉ ["MVT"; "GeoJSON"; "TopoJSON"; "KML"; "constructor"]) ->
  exists why,
    (getInstance h fuel lConf rng).1 = Rejected (TypeError why) /\
    (forall key, toString h (field "format" lConf) = Return key ->
                 why = NotAConstructor).
Proof.
  intros Hty Hkey.
  assert (Hbuilder : builderType (field "type" lConf) = true).
  { unfold builderType, vectorType in *.
    apply orb_true_iff in Hty as [-> | ->]; by rewrite ?orb_true_r. }
  rewrite getInstance_builder by done. simpl.
  assert (Hnew : forall args,
    exists why, newFormat h (field "format" lConf) args = Throw (TypeError why) /\
                (forall key, toString h (field "format" lConf) = Return key ->
                             why = NotAConstructor)).
  { intros args. unfold newFormat, mbind, completion_bind.
    destruct (toString h (field "format" lConf)) as [key | e] eqn:Hconv.
    - exists NotAConstructor. split; [| done].
      specialize (Hkey key eq_refl).
      unfold formatMapping_get, formatMapping, objectPrototype.
      rewrite !lookup_insert. rewrite lookup_empty.
      repeat (case_decide; [subst; exfalso; apply Hkey; set_solver |]).
      destruct (String.eqb_spec key "constructor");
        [subst; exfalso; apply Hkey; set_solver |].
      simpl.
      match goal with
      | |- context [if ?b then _ else _] => by destruct b
      end.
    - apply toString_throw in Hconv as ->.
      exists NoPrimitiveValue. split; [done | discriminate]. }
  unfold built. rewrite applyLid_type.
  unfold vectorType in Hty.
  unfold createVectorLayer, createVectorTileLayer.
  rewrite (applyLid_field h lConf rng "format") by done.
  destruct (field "type" lConf) as [| | | | ty | |]; try done. simpl in *.
  destruct (String.eqb ty "WMS") eqn:E1;
    [apply String.eqb_eq in E1; subst; done |].
  destruct (String.eqb ty "XYZ") eqn:E2;
    [apply String.eqb_eq in E2; subst; done |].
  destruct (String.eqb ty "OSM") eqn:E3;
    [apply String.eqb_eq in E3; subst; done |].
  destruct (String.eqb ty "VECTOR").
  - destruct (Hnew [Data (field "formatConfig" (applyLid h lConf rng).1)])
      as (why & -> & Hwhy).
    by exists why.
  - destruct (Hnew []) as (why & -> & Hwhy). by exists why.
Qed.

Lemma unknown_format_rejects_witness :
  (vectorType (field "type" shapefile) = true /\
   forall key, toString h0 (field "format" shapefile) = Return key ->
               key ∉ ["MVT"; "GeoJSON"; "TopoJSON"; "KML"; "constructor"]) /\
  exists why,
    (getInstance h0 0 shapefile 0).1 = Rejected (TypeError why) /\
    (forall key, toString h0 (field "format" shapefile) = Return key ->
                 why = NotAConstructor).
Proof.
  assert (Hkey : forall key,
             toString h0 (field "format" shapefile) = Return key ->
             key ∉ ["MVT"; "GeoJSON"; "TopoJSON"; "KML"; "constructor"]).
  { intros key Hconv. vm_compute in Hconv. injection Hconv as <-.
    intros Hin. repeat (apply elem_of_cons in Hin as [[=] | Hin]).
    by apply elem_of_nil in Hin. }
  split; [split; [reflexivity | exact Hkey] |].
  exact (unknown_format_rejects h0 0 shapefile 0 eq_refl Hkey).
Defined.

(** ** Options read back *)

(** Every builder passes [visible] and [opacity] on. *)
Lemma visible_opacity_read_back h fuel lConf rng layer :
  builderType (field "type" lConf) = true ->
  (getInstance h fuel lConf rng).1 = Resolved layer ->
  option_of "visible" layer = Data (field "visible" lConf) /\
  option_of "opacity" layer = Data (field "opacity" lConf).
Proof.
  intros Hty Hrun.
  rewrite getInstance_builder in Hrun by done. simpl in Hrun.
  rewrite <- (applyLid_field h lConf rng "visible") by done.
  rewrite <- (applyLid_field h lConf rng "opacity") by done.
  layer_cases Hrun; split; reflexivity.
Qed.

(** The WMS and the vector builder pass [extent] on as well. *)
Lemma extent_read_back h fuel lConf rng layer :
  (field "type" lConf === "WMS") || (field "type" lConf === "VECTOR") = true ->
  (getInstance h fuel lConf rng).1 = Resolved layer ->
  option_of "extent" layer = Data (field "extent" lConf).
Proof.
  intros Hty Hrun.
  rewrite getInstance_builder in Hrun.
  2: { unfold builderType.
       apply orb_true_iff in Hty as [-> | ->]; by rewrite ?orb_true_r. }
  simpl in Hrun. unfold built in Hrun. rewrite applyLid_type in Hrun.
  rewrite <- (applyLid_field h lConf rng "extent") by done.
  destruct (field "type" lConf) as [| | | | ty | |]; try done. simpl in *.
  destruct (String.eqb ty "WMS") eqn:E1; [by simplify_eq |].
  destruct (String.eqb ty "XYZ") eqn:E2;
    [apply String.eqb_eq in E2; by subst |].
  destruct (String.eqb ty "OSM") eqn:E3;
    [apply String.eqb_eq in E3; by subst |].
  simpl in Hty. rewrite Hty in Hrun.
  layer_cases Hrun. reflexivity.
Qed.

(** The XYZ, the OSM and the vector tile builder do not: whatever the
    configuration says, the layer is built without an [extent]. *)
Lemma extent_not_passed h fuel lConf rng layer :
  (field "type" lConf === "XYZ") || (field "type" lConf === "OSM")
  || (field "type" lConf === "VECTORTILE") = true ->
  (getInstance h fuel lConf rng).1 = Resolved layer ->
  options layer !! "extent" = None /\ option_of "extent" layer = Data VUndefined.
Proof.
  intros Hty Hrun.
  rewrite getInstance_builder in Hrun.
  2: { unfold builderType.
       apply orb_true_iff in Hty as [[-> | ->]%orb_true_iff | ->];
         by rewrite ?orb_true_r. }
  simpl in Hrun. unfold built in Hrun. rewrite applyLid_type in Hrun.
  destruct (field "type" lConf) as [| | | | ty | |]; try done. simpl in *.
  destruct (String.eqb ty "WMS") eqn:E1;
    [apply String.eqb_eq in E1; by subst |].
  destruct (String.eqb ty "XYZ") eqn:E2; [by simplify_eq |].
  destruct (String.eqb ty "OSM") eqn:E3; [by simplify_eq |].
  destruct (String.eqb ty "VECTOR") eqn:E4;
    [apply String.eqb_eq in E4; by subst |].
  layer_cases Hrun. split; reflexivity.
Qed.

(** C5 fails on the code: an XYZ configuration with an [extent] yields a
    layer that reads [visible] and [opacity] back but has no [extent]. The
    WMS and the vector builder pass the field on; the XYZ builder, like the
    OSM and the vector tile builder, leaves it out. *)
Theorem xyz_layer_loses_extent :
  builderType (field "type" tiles) = true /\
  field "extent" tiles = VArr [VNum zero; VNum zero; VNum ten; VNum ten] /\
  exists layer,
    (getInstance h0 0 tiles 0).1 = Resolved layer /\
    is_layer layer = true /\
    option_of "visible" layer = Data (field "visible" tiles) /\
    option_of "opacity" layer = Data (field "opacity" tiles) /\
    option_of "extent" layer = Data VUndefined /\
    option_of "extent" layer <> Data (field "extent" tiles).
Proof.
  split; [reflexivity |]. split; [reflexivity |].
  eexists. split; [vm_compute; reflexivity |].
  repeat split; try reflexivity.
  vm_compute. discriminate.
Qed.

(** ** What a call writes *)

(** Whatever the type and the fuel, the configuration is left as the first
    statement of [getInstance] leaves it. *)
Lemma getInstance_config h fuel lConf rng :
  (getInstance h fuel lConf rng).2.1 = (applyLid h lConf rng).1.
Proof.
  destruct (builderType (field "type" lConf)) eqn:Hb.
  { by rewrite getInstance_builder. }
  destruct (field "type" lConf === "LAYERCOLLECTION") eqn:Hc.
  2: { by rewrite getInstance_other. }
  destruct fuel as [| fuel].
  - pose proof (applyLid_type h lConf rng) as Hsame.
    apply strictEq_true in Hc.
    unfold applyLid in *. simpl.
    destruct (truthy (field "lid" lConf)); simpl in *; by rewrite ?Hsame, Hc.
  - rewrite getInstance_collection by done.
    destruct (applyLid h lConf rng) as [lConf' rng'].
    by destruct (createLayersFromCollection _ _ _ _) as [p [m r]].
Qed.

Lemma mapEntries_written h fuel (k : string) (response : list config) rng :
  k <> "lid" ->
  Forall2 (entryWritten h k) response
    (mapEntries (getInstance h fuel) response rng).2.1.
Proof.
  intros Hk. revert rng.
  induction response as [| e rest IH]; intros rng; simpl; [constructor |].
  pose proof (getInstance_config h fuel (<["lid" := field "name" e]> e) rng) as Hc.
  destruct (getInstance h fuel _ rng) as [p [e' rng']]. simpl in Hc.
  specialize (IH rng').
  destruct (mapEntries _ rest rng') as [ps [rest' rng'']]. simpl in *.
  constructor; [| done].
  subst e'. unfold entryWritten, applyLid.
  rewrite field_insert_eq.
  destruct (truthy (field "name" e)); simpl.
  - rewrite lookup_insert_ne, lookup_insert_eq by done. by repeat split.
  - rewrite !lookup_insert_ne, lookup_insert_eq by done.
    repeat split; [done |]. intros _. by exists rng.
Qed.

(** C3, as stated, fails: a configuration without [lid] leaves the call
    with a [lid], and the entries of a fetched manifest leave it with their
    [lid] set to their name. *)
Lemma getInstance_frame_counterexample :
  (basemap !! "lid" = None /\
   (getInstance h0 0 basemap 0).2.1 !! "lid" = Some (VStr "4fzyo")) /\
  (Forall (fun e : config => e !! "lid" = None) twoBasemaps /\
   (createLayersFromCollection hTwo (getInstance hTwo 0) collection 0).2.1 =
     [conf [("name", VStr "a"); ("type", VStr "OSM"); ("lid", VStr "a")];
      conf [("name", VStr "b"); ("type", VStr "OSM"); ("lid", VStr "b")]]).
Proof.
  split; [split; reflexivity |].
  split; [| vm_compute; reflexivity].
  repeat constructor.
Qed.

(** C3, amended: [getInstance] writes nothing to the configuration but its
    [lid]: every other field is unchanged, a truthy [lid] is unchanged too,
    and a falsy or absent one is replaced by the identifier drawn from
    [randomId]. Of the entries of a fetched manifest, likewise, only [lid]
    is written: it is set to the entry's name, or to a drawn identifier
    when the name is falsy. *)
Theorem getInstance_frame h fuel lConf rng (k : string) :
  k <> "lid" ->
  (getInstance h fuel lConf rng).2.1 !! k = lConf !! k /\
  (truthy (field "lid" lConf) = true ->
   (getInstance h fuel lConf rng).2.1 = lConf) /\
  (truthy (field "lid" lConf) = false ->
   (getInstance h fuel lConf rng).2.1 = <["lid" := VStr (randomId h rng).1]> lConf) /\
  (forall lColl response n,
     fetchJson h (field "url" lColl) = Resolved response ->
     Forall2 (entryWritten h k) response
       (createLayersFromCollection h (getInstance h fuel) lColl n).2.1).
Proof.
  intros Hk. rewrite getInstance_config.
  split; [by apply applyLid_other |].
  unfold applyLid.
  split; [by intros -> |]. split; [by intros -> |].
  intros lColl response n Hfetch.
  pose proof (mapEntries_written h fuel k response n Hk) as Hwritten.
  unfold createLayersFromCollection. rewrite Hfetch.
  by destruct (mapEntries _ response n) as [ps [after n']].
Qed.

Lemma getInstance_frame_witness :
  "type" <> "lid" /\
  (getInstance hTwo 1 basemap 0).2.1 !! "type" = basemap !! "type" /\
  (getInstance hTwo 1 basemap 0).2.1 = <["lid" := VStr "4fzyo"]> basemap /\
  Forall2 (entryWritten hTwo "type") twoBasemaps
    (createLayersFromCollection hTwo (getInstance hTwo 1) collection 0).2.1.
Proof.
  assert (Hk : "type" <> "lid") by discriminate.
  destruct (getInstance_frame hTwo 1 basemap 0 "type" Hk)
    as (Hsame & _ & Hdrawn & Hentries).
  split; [exact Hk |]. split; [exact Hsame |].
  split; [exact (Hdrawn eq_refl) |].
  exact (Hentries collection twoBasemaps 0 eq_refl).
Defined.

(** ** Collections *)

Lemma mapEntries_outcomes h fuel (response : list config) rng :
  Forall2 (entryOutcome h fuel) response
    (mapEntries (getInstance h fuel) response rng).1.
Proof.
  revert rng.
  induction response as [| e rest IH]; intros rng; simpl; [constructor |].
  destruct (getInstance h fuel _ rng) as [p [e' rng']] eqn:Hrun.
  specialize (IH rng').
  destruct (mapEntries _ rest rng') as [ps [rest' rng'']]. simpl in *.
  constructor; [| done].
  exists rng. by rewrite Hrun.
Qed.

Lemma promiseAll_resolved (ps : list (promise obj)) (layers : list obj) :
  promiseAll ps = Resolved layers <-> ps = Resolved <$> layers.
Proof.
  revert layers. induction ps as [| p ps IH]; intros layers; simpl.
  - split; [intros [= <-]; done |]. by destruct layers.
  - split.
    + destruct p as [a | e |]; destruct (promiseAll ps) as [l | e' |];
        try discriminate.
      intros [= <-]. simpl. f_equal. by apply IH.
    + destruct layers as [| a layers]; [discriminate |].
      intros [= -> Hps]. apply IH in Hps. by rewrite Hps.
Qed.

Lemma built_lid h lConf layer :
  built h lConf = Resolved layer ->
  is_layer layer = true /\ lidOf layer = field "lid" lConf.
Proof. intros Hrun. layer_cases Hrun; split; reflexivity. Qed.

Lemma promiseAll_cons_resolved (p : promise obj) ps layers :
  promiseAll (p :: ps) = Resolved layers ->
  exists a rest, p = Resolved a /\ promiseAll ps = Resolved rest /\
                 layers = a :: rest.
Proof.
  simpl. destruct p as [a | e |]; destruct (promiseAll ps) as [l | e' |];
    try discriminate.
  intros [= <-]. by exists a, l.
Qed.

(** Replacing [this.getInstance] by a function that resolves wherever it
    does leaves a resolved collection as it is. *)
Lemma mapEntries_resolved_ext (self1 self2 : config -> nat -> run)
    (response : list config) rng layers :
  (forall c n v st, self1 c n = (Resolved v, st) -> self2 c n = (Resolved v, st)) ->
  promiseAll (mapEntries self1 response rng).1 = Resolved layers ->
  mapEntries self2 response rng = mapEntries self1 response rng.
Proof.
  intros Hself. revert rng layers.
  induction response as [| e rest IH]; intros rng layers; simpl; [done |].
  destruct (self1 _ rng) as [p [e' rng']] eqn:Hrun.
  destruct (mapEntries self1 rest rng') as [ps [rest' rng'']] eqn:Hrest.
  intros (a & l & -> & Hall & _)%promiseAll_cons_resolved.
  rewrite (Hself _ _ _ _ Hrun).
  specialize (IH rng' l). rewrite Hrest in IH. by rewrite (IH Hall).
Qed.

(** A call that has resolved within some fuel resolves to the same layer,
    and leaves the same state, within any larger fuel. *)
Lemma getInstance_resolved_step h fuel lConf rng v st :
  getInstance h fuel lConf rng = (Resolved v, st) ->
  getInstance h (S fuel) lConf rng = (Resolved v, st).
Proof.
  revert lConf rng v st. induction fuel as [| fuel IH]; intros lConf rng v st.
  - destruct (builderType (field "type" lConf)) eqn:Hb.
    { by rewrite !getInstance_builder. }
    destruct (field "type" lConf === "LAYERCOLLECTION") eqn:Hc.
    2: { by rewrite !getInstance_other. }
    pose proof (applyLid_type h lConf rng) as Hsame.
    apply strictEq_true in Hc.
    unfold applyLid in *. simpl.
    destruct (truthy (field "lid" lConf)); simpl in *;
      rewrite ?Hsame, Hc; discriminate.
  - destruct (builderType (field "type" lConf)) eqn:Hb.
    { by rewrite !getInstance_builder. }
    destruct (field "type" lConf === "LAYERCOLLECTION") eqn:Hc.
    2: { by rewrite !getInstance_other. }
    rewrite !getInstance_collection by done.
    destruct (applyLid h lConf rng) as [lConf' rng'].
    unfold createLayersFromCollection.
    destruct (fetchJson h (field "url" lConf')) as [response | e |]; try done.
    destruct (mapEntries (getInstance h fuel) response rng')
      as [ps [after rng'']] eqn:Hmap.
    intros Hres. simpl in Hres.
    destruct (promiseAll ps) as [layers | |] eqn:Hall; try discriminate.
    rewrite (mapEntries_resolved_ext (getInstance h fuel) (getInstance h (S fuel))
               response rng' layers IH), Hmap; [| by rewrite Hmap].
    by rewrite Hall.
Qed.

Lemma getInstance_resolved_mono h fuel fuel' lConf rng v st :
  fuel <= fuel' ->
  getInstance h fuel lConf rng = (Resolved v, st) ->
  getInstance h fuel' lConf rng = (Resolved v, st).
Proof.
  induction 1 as [| fuel' _ IH]; [done |].
  intros Hrun. by apply getInstance_resolved_step, IH.
Qed.

Lemma getInstance_state h fuel lConf rng :
  (field "type" lConf === "LAYERCOLLECTION") = false ->
  (getInstance h fuel lConf rng).2 = applyLid h lConf rng.
Proof.
  intros Hc. destruct (builderType (field "type" lConf)) eqn:Hb.
  - by rewrite getInstance_builder.
  - by rewrite getInstance_other.
Qed.

Lemma built_settled h lConf : built h lConf <> Pending.
Proof.
  unfold built.
  repeat (destruct (_ === _); [discriminate |]).
  destruct (_ === _).
  - destruct (createVectorLayer h lConf); discriminate.
  - destruct (createVectorTileLayer h lConf); discriminate.
Qed.

(** A call for any type but LAYERCOLLECTION is settled when it returns. *)
Lemma getInstance_settled h fuel lConf rng :
  (field "type" lConf === "LAYERCOLLECTION") = false ->
  (getInstance h fuel lConf rng).1 <> Pending.
Proof.
  intros Hc. destruct (builderType (field "type" lConf)) eqn:Hb.
  - rewrite getInstance_builder by done. apply built_settled.
  - by rewrite getInstance_other.
Qed.

Lemma promiseAll_settled (ps : list (promise obj)) :
  Forall (fun p => p <> Pending) ps -> promiseAll ps <> Pending.
Proof.
  induction 1 as [| p ps Hp _ IH]; simpl; [done |].
  destruct p as [a | e |]; destruct (promiseAll ps) as [l | e' |]; done.
Qed.

(** C4: for a LAYERCOLLECTION configuration whose fetched manifest is an
    array of layer configurations, none of them a collection itself, the
    callbacks' promises follow the manifest entry by entry, each being
    [getInstance] on its entry with [lid] set to the entry's name; the call
    is settled, and it resolves exactly when every one of them has, to the
    array of their values, as long as the manifest and in its order, within
    any fuel that lets the fetch return; and a layer built from a named
    entry carries that name as its identifier. *)
Theorem collection_follows_manifest h fuel lConf rng manifest :
  (field "type" lConf === "LAYERCOLLECTION") = true ->
  fetchJson h (field "url" lConf) = Resolved manifest ->
  Forall (fun e : config => (field "type" e === "LAYERCOLLECTION") = false)
    manifest ->
  exists outs : list (promise obj),
    Forall2 (entryOutcome h fuel) manifest outs /\
    (forall layers,
       outs = Resolved <$> layers ->
       forall fuel', S fuel <= fuel' ->
       (getInstance h fuel' lConf rng).1 = Resolved (Arr layers)) /\
    (forall res,
       (getInstance h (S fuel) lConf rng).1 = Resolved res ->
       exists layers, res = Arr layers /\ outs = Resolved <$> layers /\
                      length layers = length manifest) /\
    (forall i e layer,
       manifest !! i = Some e ->
       outs !! i = Some (Resolved layer) ->
       builderType (field "type" e) = true ->
       truthy (field "name" e) = true ->
       is_layer layer = true /\ lidOf layer = field "name" e) /\
    (getInstance h (S fuel) lConf rng).1 <> Pending.
Proof.
  intros Hty Hfetch Hflat.
  pose proof (getInstance_collection h fuel lConf rng Hty) as Hrun.
  pose proof (applyLid_field h lConf rng "url") as Hurl.
  destruct (applyLid h lConf rng) as [lConf' rng'].
  simpl in Hurl. unfold createLayersFromCollection in Hrun.
  rewrite Hurl, Hfetch in Hrun by done.
  pose proof (mapEntries_outcomes h fuel manifest rng') as Houts.
  destruct (mapEntries _ manifest rng') as [outs [after rng'']].
  simpl in *. exists outs.
  split; [done |]. split; [| split; [| split]].
  - intros layers Hall fuel' Hle. apply promiseAll_resolved in Hall.
    rewrite Hall in Hrun. simpl in Hrun.
    by rewrite (getInstance_resolved_mono _ _ _ _ _ _ _ Hle Hrun).
  - intros res Hres. rewrite Hrun in Hres. simpl in Hres.
    destruct (promiseAll outs) as [layers | |] eqn:Hall; try discriminate.
    injection Hres as <-. apply promiseAll_resolved in Hall.
    exists layers. split; [done |]. split; [done |].
    apply Forall2_length in Houts.
    rewrite Houts, Hall. by rewrite length_fmap.
  - intros i e layer He Hout Hbuilder Hname.
    destruct (Forall2_lookup_lr _ _ _ _ _ _ Houts He Hout) as [n Hentry].
    rewrite getInstance_builder in Hentry
      by (by rewrite field_insert_ne).
    simpl in Hentry. symmetry in Hentry.
    apply built_lid in Hentry as [Hlayer Hlid].
    split; [done |].
    by rewrite Hlid, applyLid_lid, field_insert_eq, Hname.
  - rewrite Hrun. simpl.
    assert (Hsettled : Forall (fun p => p <> Pending) outs).
    { apply Forall_forall. intros out [i Hi]%list_elem_of_lookup.
      destruct (Forall2_lookup_r _ _ _ _ _ Houts Hi) as (e & He & n & ->).
      apply getInstance_settled. rewrite field_insert_ne by done.
      by eapply (proj1 (Forall_lookup _ _) Hflat). }
    apply promiseAll_settled in Hsettled.
    by destruct (promiseAll outs).
Qed.

(** The manifest [[{name:"a",type:"OSM"},{name:"b",type:"OSM"}]] gives two
    layers, identified ["a"] and ["b"], in that order. *)
Lemma collection_follows_manifest_witness :
  (field "type" collection === "LAYERCOLLECTION") = true /\
  fetchJson hTwo (field "url" collection) = Resolved twoBasemaps /\
  Forall (fun e : config => (field "type" e === "LAYERCOLLECTION") = false)
    twoBasemaps /\
  exists a b,
    (getInstance hTwo 1 collection 0).1 = Resolved (Arr [a; b]) /\
    (is_layer a = true /\ lidOf a = VStr "a") /\
    (is_layer b = true /\ lidOf b = VStr "b").
Proof.
  assert (Hflat : Forall (fun e : config =>
                    (field "type" e === "LAYERCOLLECTION") = false) twoBasemaps)
    by (repeat constructor).
  split; [reflexivity |]. split; [reflexivity |]. split; [exact Hflat |].
  destruct (collection_follows_manifest hTwo 0 collection 0 twoBasemaps
              eq_refl eq_refl Hflat) as (outs & Houts & Hres & _ & Hlid & _).
  unfold twoBasemaps in Houts.
  apply Forall2_cons_inv_l in Houts as (o1 & outs1 & [n1 H1] & Houts & ->).
  apply Forall2_cons_inv_l in Houts as (o2 & outs2 & [n2 H2] & Houts & ->).
  apply Forall2_nil_inv_l in Houts as ->.
  vm_compute in H1, H2.
  match type of H1 with _ = Resolved ?a =>
    match type of H2 with _ = Resolved ?b => exists a, b end end.
  subst o1 o2.
  split; [exact (Hres [_; _] eq_refl 1 (le_n 1)) |].
  split.
  - exact (Hlid 0 _ _ eq_refl eq_refl eq_refl eq_refl).
  - exact (Hlid 1 _ _ eq_refl eq_refl eq_refl eq_refl).
Defined.

(** ** The identifier drawn *)

Lemma substring_length (n m : nat) (s : string) :
  String.length (String.substring n m s) = Nat.min m (String.length s - n).
Proof.
  revert n m.
  induction s as [| c s IH]; intros [| n] [| m];
    cbn [String.substring String.length]; rewrite ?IH; lia.
Qed.

(** X1: the identifier [randomId] returns is made of the characters at
    positions 2 to 6 of the rendering, in their order, as many of them as
    the rendering has; for a well-formed rendering they are base-36 digits;
    and it costs exactly one draw. *)
Theorem randomId_characters h rng :
  rendering36 (mathRandom36 h rng) = true ->
  (forall i,
     String.get i (randomId h rng).1 =
       if Nat.ltb i 5 then String.get (i + 2) (mathRandom36 h rng) else None) /\
  String.length (randomId h rng).1 =
    Nat.min 5 (String.length (mathRandom36 h rng) - 2) /\
  all_base36 (randomId h rng).1 = true /\
  (randomId h rng).2 = S rng.
Proof.
  intros Hr. simpl. split.
  { intros i. destruct (Nat.ltb_spec i 5).
    - by apply substring_correct1.
    - by apply substring_correct2. }
  split; [apply substring_length |]. split; [| done].
  apply rendering36_cases in Hr as [-> | (digits & -> & _ & Hd)]; [done |].
  simpl. by apply substring_all_base36.
Qed.

Lemma randomId_characters_witness :
  rendering36 (mathRandom36 h0 0) = true /\
  (forall i,
     String.get i (randomId h0 0).1 =
       if Nat.ltb i 5 then String.get (i + 2) "0.4fzyo82mvyr" else None) /\
  String.length (randomId h0 0).1 = 5 /\
  all_base36 (randomId h0 0).1 = true /\
  (randomId h0 0).2 = 1.
Proof.
  split; [reflexivity |].
  exact (randomId_characters h0 0 eq_refl).
Defined.

(** ** What a call depends on *)

Lemma builderType_cases (ty : value) :
  builderType ty = true ->
  ty = VStr "WMS" \/ ty = VStr "XYZ" \/ ty = VStr "OSM" \/
  ty = VStr "VECTOR" \/ ty = VStr "VECTORTILE".
Proof. unfold builderType. rewrite !orb_true_iff, !strictEq_true. tauto. Qed.

Lemma getInstance_collection_0 h lConf rng :
  (field "type" lConf === "LAYERCOLLECTION") = true ->
  getInstance h 0 lConf rng = (Pending, applyLid h lConf rng).
Proof.
  intros Hty%strictEq_true.
  pose proof (applyLid_type h lConf rng) as Hsame.
  unfold applyLid in *. simpl.
  destruct (truthy (field "lid" lConf)); simpl in *; by rewrite ?Hsame, Hty.
Qed.

Lemma agreeOn_field (ks : list string) (c1 c2 : config) (k : string) :
  agreeOn ks c1 c2 -> k ∈ ks -> field k c1 = field k c2.
Proof. intros Hagree Hk. unfold field. by rewrite (Hagree k Hk). Qed.

Lemma applyLid_agreeOn h (ks : list string) (c1 c2 : config) rng :
  "lid" ∈ ks -> agreeOn ks c1 c2 ->
  agreeOn ks (applyLid h c1 rng).1 (applyLid h c2 rng).1 /\
  (applyLid h c1 rng).2 = (applyLid h c2 rng).2.
Proof.
  intros Hlid Hagree. unfold applyLid.
  rewrite (agreeOn_field ks c1 c2 "lid" Hagree Hlid).
  destruct (truthy (field "lid" c2)); simpl; split; try done.
  intros k Hk. rewrite !lookup_insert.
  case_decide; [done |]. by apply Hagree.
Qed.

(** X2: [getInstance] reads [lid], [type] and the fields of its type's
    branch, nothing else: two configurations that agree on those settle to
    the same promise and take the same draws, whatever their other fields
    hold. *)
Theorem getInstance_reads_only h fuel (c1 c2 : config) rng :
  agreeOn ("lid" :: "type" :: fieldsRead (field "type" c1)) c1 c2 ->
  (getInstance h fuel c1 rng).1 = (getInstance h fuel c2 rng).1 /\
  (getInstance h fuel c1 rng).2.2 = (getInstance h fuel c2 rng).2.2.
Proof.
  intros Hagree.
  assert (Hty : field "type" c1 = field "type" c2).
  { eapply agreeOn_field; [done | set_solver]. }
  destruct (applyLid_agreeOn h _ c1 c2 rng (list_elem_of_here _ _) Hagree)
    as [Happlied Hrng].
  assert (Hfield : forall k,
             k ∈ "lid" :: "type" :: fieldsRead (field "type" c1) ->
             field k (applyLid h c1 rng).1 = field k (applyLid h c2 rng).1).
  { intros k. by apply agreeOn_field. }
  destruct (builderType (field "type" c1)) eqn:Hb.
  - rewrite !getInstance_builder by (by rewrite <- ?Hty). simpl.
    split; [| done]. unfold built. rewrite !applyLid_type, <- Hty.
    apply builderType_cases in Hb as [Hc | [Hc | [Hc | [Hc | Hc]]]];
      rewrite Hc in *; simpl in *;
      unfold createWmsLayer, createXyzLayer, createOsmLayer,
        createVectorLayer, createVectorTileLayer;
      rewrite !Hfield
        by (repeat first [apply list_elem_of_here | apply list_elem_of_further]);
      done.
  - destruct (field "type" c1 === "LAYERCOLLECTION") eqn:Hc.
    2: { rewrite !getInstance_other by (by rewrite <- ?Hty). done. }
    destruct fuel as [| fuel].
    { rewrite !getInstance_collection_0 by (by rewrite <- ?Hty). done. }
    rewrite !getInstance_collection by (by rewrite <- ?Hty).
    apply strictEq_true in Hc. rewrite Hc in *. simpl in *.
    destruct (applyLid h c1 rng) as [c1' rng1], (applyLid h c2 rng) as [c2' rng2].
    simpl in *. subst rng2. unfold createLayersFromCollection.
    rewrite (Hfield "url") by set_solver.
    destruct (fetchJson h (field "url" c2')) as [response | e |]; try done.
    by destruct (mapEntries _ response rng1) as [ps [after rng']].
Qed.

Lemma getInstance_reads_only_witness :
  agreeOn ("lid" :: "type" :: fieldsRead (field "type" tiled)) tiled tiledPlain /\
  tiled !! "formatConfig" <> tiledPlain !! "formatConfig" /\
  (getInstance h0 0 tiled 0).1 = (getInstance h0 0 tiledPlain 0).1.
Proof.
  assert (Hagree : agreeOn ("lid" :: "type" :: fieldsRead (field "type" tiled))
                     tiled tiledPlain).
  { intros k Hk. vm_compute in Hk.
    repeat (apply elem_of_cons in Hk as [-> | Hk]); try reflexivity.
    by apply elem_of_nil in Hk. }
  split; [exact Hagree |]. split; [discriminate |].
  exact (proj1 (getInstance_reads_only h0 0 tiled tiledPlain 0 Hagree)).
Defined.

(** X3: a call for any type but LAYERCOLLECTION is settled on the spot:
    its outcome is the same for every fuel and every network, and for every
    generator when [lid] is truthy (or the draw is the same); it is never
    left pending. *)
Theorem settled_without_network h random fetch fuel fuel' lConf rng :
  (field "type" lConf === "LAYERCOLLECTION") = false ->
  truthy (field "lid" lConf) = true \/ random rng = mathRandom36 h rng ->
  getInstance (withRandomAndFetch h random fetch) fuel lConf rng =
    getInstance h fuel' lConf rng /\
  (getInstance h fuel' lConf rng).1 <> Pending.
Proof.
  intros Hc Hdraw.
  assert (Happly : applyLid (withRandomAndFetch h random fetch) lConf rng =
                   applyLid h lConf rng).
  { unfold applyLid, randomId. simpl.
    destruct (truthy (field "lid" lConf)); [done |].
    by destruct Hdraw as [| ->]. }
  destruct (builderType (field "type" lConf)) eqn:Hb.
  - rewrite !getInstance_builder by done. rewrite Happly.
    split; [reflexivity | apply built_settled].
  - rewrite !getInstance_other by done. by rewrite Happly.
Qed.

Lemma settled_without_network_witness :
  (field "type" styled === "LAYERCOLLECTION") = false /\
  getInstance hOther 0 styled 7 = getInstance h0 3 styled 7 /\
  (getInstance h0 3 styled 7).1 <> Pending.
Proof.
  split; [reflexivity |].
  exact (settled_without_network h0 (fun _ => "0.i")
           (fun _ => Resolved twoBasemaps) 0 3 styled 7 eq_refl
           (or_introl eq_refl)).
Defined.

(** ** Collections that do not resolve *)

(** X4: a collection whose fetch is rejected is rejected with the same
    error, and a collection whose fetch stays pending stays pending; either
    way nothing but the collection's own identifier has been applied. *)
Theorem collection_waits_for_fetch h fuel lConf rng :
  (field "type" lConf === "LAYERCOLLECTION") = true ->
  (forall e,
     fetchJson h (field "url" lConf) = Rejected e ->
     getInstance h (S fuel) lConf rng = (Rejected e, applyLid h lConf rng)) /\
  (fetchJson h (field "url" lConf) = Pending ->
   getInstance h fuel lConf rng = (Pending, applyLid h lConf rng)).
Proof.
  intros Hc.
  pose proof (applyLid_field h lConf rng "url") as Hurl.
  split.
  - intros e Hfetch. rewrite getInstance_collection by done.
    destruct (applyLid h lConf rng) as [lConf' rng']. simpl in Hurl.
    unfold createLayersFromCollection. by rewrite Hurl, Hfetch.
  - intros Hfetch. destruct fuel as [| fuel].
    { by apply getInstance_collection_0. }
    rewrite getInstance_collection by done.
    destruct (applyLid h lConf rng) as [lConf' rng']. simpl in Hurl.
    unfold createLayersFromCollection. by rewrite Hurl, Hfetch.
Qed.

Lemma collection_waits_for_fetch_witness :
  (field "type" collection === "LAYERCOLLECTION") = true /\
  fetchJson h0 (field "url" collection) = Rejected (FetchError "offline") /\
  getInstance h0 1 collection 0 = (Rejected (FetchError "offline"), (collection, 0)).
Proof.
  split; [reflexivity |]. split; [reflexivity |].
  exact (proj1 (collection_waits_for_fetch h0 0 collection 0 eq_refl)
           (FetchError "offline") eq_refl).
Defined.

(** X5: an empty manifest resolves to the empty array. *)
Theorem empty_manifest h fuel lConf rng :
  (field "type" lConf === "LAYERCOLLECTION") = true ->
  fetchJson h (field "url" lConf) = Resolved [] ->
  getInstance h (S fuel) lConf rng = (Resolved (Arr []), applyLid h lConf rng).
Proof.
  intros Hc Hfetch.
  pose proof (applyLid_field h lConf rng "url") as Hurl.
  rewrite getInstance_collection by done.
  destruct (applyLid h lConf rng) as [lConf' rng']. simpl in Hurl.
  unfold createLayersFromCollection. by rewrite Hurl, Hfetch.
Qed.

Lemma empty_manifest_witness :
  (field "type" collection === "LAYERCOLLECTION") = true /\
  fetchJson (sampleHost "0" (Resolved [])) (field "url" collection) = Resolved [] /\
  getInstance (sampleHost "0" (Resolved [])) 1 collection 0 =
    (Resolved (Arr []), (collection, 0)).
Proof.
  split; [reflexivity |]. split; [reflexivity |].
  exact (empty_manifest (sampleHost "0" (Resolved [])) 0 collection 0
           eq_refl eq_refl).
Defined.

Lemma promiseAll_rejects (ps : list (promise obj)) (e : error) :
  Rejected e ∈ ps -> exists e', promiseAll ps = Rejected e'.
Proof.
  induction ps as [| p ps IH]; [by intros ?%elem_of_nil |].
  intros [<- | Hin]%elem_of_cons; simpl.
  - by exists e.
  - destruct (IH Hin) as [e' ->]. destruct p; eauto.
Qed.

Lemma promiseAll_rejected_from (ps : list (promise obj)) (e : error) :
  promiseAll ps = Rejected e -> Rejected e ∈ ps.
Proof.
  induction ps as [| p ps IH]; [done |]. simpl.
  destruct p as [a | e' |]; destruct (promiseAll ps) as [l | e'' |];
    try discriminate; intros [= <-]; try (by left); right; by apply IH.
Qed.

(** X6: when the promise of one manifest entry is rejected, the whole
    collection is rejected, with the error of one of its entries: no partial
    array is returned. *)
Theorem collection_rejects_with_an_entry h fuel lConf rng manifest (e : config) :
  (field "type" lConf === "LAYERCOLLECTION") = true ->
  fetchJson h (field "url" lConf) = Resolved manifest ->
  e ∈ manifest ->
  (forall n, exists err,
     (getInstance h fuel (<["lid" := field "name" e]> e) n).1 = Rejected err) ->
  exists err,
    (getInstance h (S fuel) lConf rng).1 = Rejected err /\
    exists e' n, e' ∈ manifest /\
      (getInstance h fuel (<["lid" := field "name" e']> e') n).1 = Rejected err.
Proof.
  intros Hc Hfetch Hin Hentry.
  pose proof (applyLid_field h lConf rng "url") as Hurl.
  rewrite getInstance_collection by done.
  destruct (applyLid h lConf rng) as [lConf' rng']. simpl in Hurl.
  unfold createLayersFromCollection. rewrite Hurl, Hfetch by done.
  pose proof (mapEntries_outcomes h fuel manifest rng') as Houts.
  destruct (mapEntries _ manifest rng') as [outs [after rng'']]. simpl in *.
  apply list_elem_of_lookup in Hin as [i Hi].
  destruct (Forall2_lookup_l _ _ _ _ _ Houts Hi) as (out & Hout & n & ->).
  destruct (Hentry n) as [err Herr]. rewrite Herr in Hout.
  destruct (promiseAll_rejects outs err) as [err' Hall].
  { apply list_elem_of_lookup. by exists i. }
  rewrite Hall. exists err'. split; [done |].
  apply promiseAll_rejected_from, list_elem_of_lookup in Hall as [j Hj].
  destruct (Forall2_lookup_r _ _ _ _ _ Houts Hj) as (e' & He' & n' & Hrun).
  exists e', n'. split; [| done].
  apply list_elem_of_lookup. by exists j.
Qed.

Lemma collection_rejects_with_an_entry_witness :
  (field "type" collection === "LAYERCOLLECTION") = true /\
  fetchJson hBroken (field "url" collection) = Resolved broken /\
  exists err, (getInstance hBroken 1 collection 0).1 = Rejected err.
Proof.
  split; [reflexivity |]. split; [reflexivity |].
  destruct (collection_rejects_with_an_entry hBroken 0 collection 0 broken
              (conf [("name", VStr "parcels"); ("type", VStr "VECTOR");
                     ("format", VStr "Shapefile")]) eq_refl eq_refl)
    as (err & Hrun & _).
  - apply list_elem_of_further, list_elem_of_here.
  - intros n. eexists. vm_compute. reflexivity.
  - by exists err.
Defined.

(** ** What a call resolves to *)

Lemma resolved_shape h fuel lConf rng v :
  (getInstance h fuel lConf rng).1 = Resolved v ->
  shapedBy (field "type" lConf) v.
Proof.
  unfold shapedBy. intros Hrun.
  destruct (builderType (field "type" lConf)) eqn:Hb.
  { left. split; [done |].
    rewrite getInstance_builder in Hrun by done.
    by apply built_lid in Hrun as [? _]. }
  destruct (field "type" lConf === "LAYERCOLLECTION") eqn:Hc.
  2: { right; right. rewrite getInstance_other in Hrun by done.
       by simplify_eq/=. }
  right; left. split; [done |].
  destruct fuel as [| fuel].
  { by rewrite getInstance_collection_0 in Hrun. }
  rewrite getInstance_collection in Hrun by done.
  destruct (applyLid h lConf rng) as [lConf' rng'].
  destruct (createLayersFromCollection _ _ _ _) as [p [m r]] eqn:Hcoll.
  simpl in Hrun. subst p.
  unfold createLayersFromCollection in Hcoll.
  destruct (fetchJson h _) as [response | |]; try discriminate.
  destruct (mapEntries _ response rng') as [ps [after rng'']].
  destruct (promiseAll ps) as [items | |]; try discriminate.
  simpl in Hcoll. simplify_eq. by exists items.
Qed.

(** X7: a resolved call yields a layer for the five builder types, an
    array for a collection and [null] for any other type; and the array of a
    collection has, position by position, the shape the type of each
    manifest entry asks for: entries of unknown type give [null], nested
    collections give nested arrays, nothing is dropped or flattened. *)
Theorem resolved_value_by_type h fuel lConf rng v :
  (getInstance h fuel lConf rng).1 = Resolved v ->
  shapedBy (field "type" lConf) v /\
  (forall items manifest,
     v = Arr items ->
     fetchJson h (field "url" lConf) = Resolved manifest ->
     Forall2 (fun (e : config) x => shapedBy (field "type" e) x) manifest items).
Proof.
  intros Hrun. split; [by eapply resolved_shape |].
  intros items manifest -> Hfetch.
  destruct (resolved_shape _ _ _ _ _ Hrun) as [[_ [=]] | [[Hc _] | (_ & _ & [=])]].
  pose proof (applyLid_field h lConf rng "url") as Hurl.
  destruct fuel as [| fuel].
  { by rewrite getInstance_collection_0 in Hrun. }
  rewrite getInstance_collection in Hrun by done.
  destruct (applyLid h lConf rng) as [lConf' rng']. simpl in Hurl.
  unfold createLayersFromCollection in Hrun.
  rewrite Hurl, Hfetch in Hrun by done.
  pose proof (mapEntries_outcomes h fuel manifest rng') as Houts.
  destruct (mapEntries _ manifest rng') as [outs [after rng'']]. simpl in *.
  destruct (promiseAll outs) as [items' | |] eqn:Hall; try discriminate.
  simpl in Hrun. simplify_eq.
  apply promiseAll_resolved in Hall as ->.
  apply (proj1 (Forall2_fmap_r Resolved (entryOutcome h fuel) manifest items))
    in Houts.
  eapply Forall2_impl; [exact Houts |].
  intros e x [n Hentry]. simpl in Hentry. symmetry in Hentry.
  apply resolved_shape in Hentry.
  by rewrite field_insert_ne in Hentry.
Qed.

Lemma resolved_value_by_type_witness :
  exists a b c,
    (getInstance hMixed 1 collection 0).1 = Resolved (Arr [a; b; c]) /\
    is_layer a = true /\ b = Data VNull /\ is_layer c = true /\
    Forall2 (fun (e : config) x => shapedBy (field "type" e) x) mixed [a; b; c].
Proof.
  assert (Hrun : exists a c,
             (getInstance hMixed 1 collection 0).1 =
               Resolved (Arr [a; Data VNull; c]) /\
             is_layer a = true /\ is_layer c = true).
  { eexists _, _. split; [vm_compute; reflexivity |]. split; reflexivity. }
  destruct Hrun as (a & c & Hrun & Ha & Hc).
  exists a, (Data VNull), c.
  split; [exact Hrun |]. split; [exact Ha |]. split; [reflexivity |].
  split; [exact Hc |].
  exact (proj2 (resolved_value_by_type hMixed 1 collection 0 _ Hrun)
           _ mixed eq_refl eq_refl).
Defined.

(** ** Calling again *)

(** X8: for any type but LAYERCOLLECTION, once a call has left the
    configuration with a truthy [lid], calling again on that configuration
    gives the same outcome, writes nothing and draws nothing. *)
Theorem getInstance_again h fuel fuel' lConf rng :
  (field "type" lConf === "LAYERCOLLECTION") = false ->
  truthy (field "lid" (getInstance h fuel lConf rng).2.1) = true ->
  getInstance h fuel' (getInstance h fuel lConf rng).2.1
    (getInstance h fuel lConf rng).2.2 =
  getInstance h fuel lConf rng.
Proof.
  intros Hc. rewrite (getInstance_state h fuel lConf rng Hc).
  intros Hlid.
  assert (Hfix : applyLid h (applyLid h lConf rng).1 (applyLid h lConf rng).2 =
                 applyLid h lConf rng).
  { unfold applyLid at 1. rewrite Hlid. by destruct (applyLid h lConf rng). }
  destruct (builderType (field "type" lConf)) eqn:Hb.
  - rewrite (getInstance_builder h fuel') by (by rewrite applyLid_type).
    rewrite (getInstance_builder h fuel) by done. by rewrite Hfix.
  - rewrite (getInstance_other h fuel') by (by rewrite applyLid_type).
    rewrite (getInstance_other h fuel) by done. by rewrite Hfix.
Qed.

Lemma getInstance_again_witness :
  (field "type" basemap === "LAYERCOLLECTION") = false /\
  (getInstance h0 0 basemap 0).2 = (<["lid" := VStr "4fzyo"]> basemap, 1) /\
  getInstance h0 0 (<["lid" := VStr "4fzyo"]> basemap) 1 =
    getInstance h0 0 basemap 0.
Proof.
  split; [reflexivity |]. split; [reflexivity |].
  exact (getInstance_again h0 0 0 basemap 0 eq_refl eq_refl).
Defined.

(** X9: a configuration of one of the five builder types, whose format
    resolves when the type is VECTOR or VECTORTILE, yields a layer; the
    layer a call has built and the configuration it leaves carry the same
    [lid], also when that is the empty string; and the call has drawn one
    random number if the given [lid] was falsy, none otherwise. *)
Theorem layer_and_config_share_lid h fuel lConf rng :
  builderType (field "type" lConf) = true ->
  ((vectorType (field "type" lConf) = true -> formatResolves h lConf = true) ->
   exists layer,
     (getInstance h fuel lConf rng).1 = Resolved layer /\ is_layer layer = true) /\
  (forall layer,
     (getInstance h fuel lConf rng).1 = Resolved layer ->
     lidOf layer = field "lid" (getInstance h fuel lConf rng).2.1 /\
     (getInstance h fuel lConf rng).2.2 =
       rng + (if truthy (field "lid" lConf) then 0 else 1)).
Proof.
  intros Hb. split; [by apply getInstance_produces |].
  intros layer Hrun. rewrite getInstance_builder in * by done. simpl in *.
  apply built_lid in Hrun as [_ ->]. split; [done |].
  unfold applyLid. destruct (truthy (field "lid" lConf)); simpl; lia.
Qed.

Lemma layer_and_config_share_lid_witness :
  builderType (field "type" basemap) = true /\
  exists layer,
    (getInstance hZero 0 basemap 0).1 = Resolved layer /\
    lidOf layer = VStr "" /\
    field "lid" (getInstance hZero 0 basemap 0).2.1 = VStr "" /\
    (getInstance hZero 0 basemap 0).2.2 = 1.
Proof.
  split; [reflexivity |].
  destruct (layer_and_config_share_lid hZero 0 basemap 0 eq_refl)
    as [Hproduced Hshared].
  destruct Hproduced as (layer & Hrun & _); [intros [=] |].
  destruct (Hshared layer Hrun) as [Hlid Hrng].
  exists layer. split; [exact Hrun |].
  split; [exact Hlid |]. split; [reflexivity | exact Hrng].
Defined.

(** ** Draws of a collection *)

Lemma mapEntries_draws h fuel (manifest : list config) rng :
  Forall (fun e : config => (field "type" e === "LAYERCOLLECTION") = false)
    manifest ->
  (mapEntries (getInstance h fuel) manifest rng).2.2 =
    rng + length (nameless manifest).
Proof.
  intros Hflat. revert rng.
  induction Hflat as [| e rest He _ IH]; intros rng; simpl; [lia |].
  pose proof (getInstance_state h fuel (<["lid" := field "name" e]> e) rng) as Hst.
  rewrite field_insert_ne in Hst by done. specialize (Hst He).
  destruct (getInstance h fuel _ rng) as [p [e' rng']]. simpl in Hst.
  specialize (IH rng').
  destruct (mapEntries _ rest rng') as [ps [rest' rng'']]. simpl in *.
  subst rng''. unfold applyLid in Hst. rewrite field_insert_eq in Hst.
  unfold nameless. rewrite filter_cons.
  case_decide as Hn.
  - rewrite Hn in Hst. simplify_eq/=. lia.
  - apply not_false_is_true in Hn. rewrite Hn in Hst. simplify_eq/=. lia.
Qed.

(** X10: a collection whose manifest holds no nested collection draws one
    identifier for each entry without a truthy name, besides its own. *)
Theorem collection_draws_per_nameless_entry h fuel lConf rng manifest :
  (field "type" lConf === "LAYERCOLLECTION") = true ->
  fetchJson h (field "url" lConf) = Resolved manifest ->
  Forall (fun e : config => (field "type" e === "LAYERCOLLECTION") = false)
    manifest ->
  (getInstance h (S fuel) lConf rng).2.2 =
    rng + (if truthy (field "lid" lConf) then 0 else 1)
        + length (nameless manifest).
Proof.
  intros Hc Hfetch Hflat.
  pose proof (applyLid_field h lConf rng "url") as Hurl.
  rewrite getInstance_collection by done.
  assert (Hrng : (applyLid h lConf rng).2 =
                 rng + (if truthy (field "lid" lConf) then 0 else 1)).
  { unfold applyLid. destruct (truthy _); simpl; lia. }
  destruct (applyLid h lConf rng) as [lConf' rng']. simpl in Hurl, Hrng.
  unfold createLayersFromCollection. rewrite Hurl, Hfetch by done.
  pose proof (mapEntries_draws h fuel manifest rng' Hflat) as Hdraws.
  destruct (mapEntries _ manifest rng') as [outs [after rng'']].
  simpl in *. lia.
Qed.

Lemma collection_draws_per_nameless_entry_witness :
  (field "type" collection === "LAYERCOLLECTION") = true /\
  fetchJson hMixed (field "url" collection) = Resolved mixed /\
  length (nameless mixed) = 1 /\
  (getInstance hMixed 1 collection 5).2.2 = 6.
Proof.
  split; [reflexivity |]. split; [reflexivity |]. split; [reflexivity |].
  apply (collection_draws_per_nameless_entry hMixed 0 collection 5 mixed
           eq_refl eq_refl).
  repeat constructor.
Defined.

(** ** What each builder hands over *)

(** The layer a resolved call has built, for each of the five types, from
    the configuration as it is once the identifier was applied. *)
Lemma resolved_layer h fuel lConf rng layer :
  (getInstance h fuel lConf rng).1 = Resolved layer ->
  ((field "type" lConf === "WMS") = true ->
   layer = createWmsLayer (applyLid h lConf rng).1) /\
  ((field "type" lConf === "XYZ") = true ->
   layer = createXyzLayer (applyLid h lConf rng).1) /\
  ((field "type" lConf === "OSM") = true ->
   layer = createOsmLayer (applyLid h lConf rng).1) /\
  ((field "type" lConf === "VECTOR") = true ->
   createVectorLayer h (applyLid h lConf rng).1 = Return layer) /\
  ((field "type" lConf === "VECTORTILE") = true ->
   createVectorTileLayer h (applyLid h lConf rng).1 = Return layer).
Proof.
  intros Hrun.
  repeat split; intros Hty;
    rewrite getInstance_builder in Hrun
      by (eapply builderType_intro; [done | set_solver]);
    simpl in Hrun; unfold built in Hrun; rewrite applyLid_type in Hrun;
    apply strictEq_true in Hty; rewrite Hty in Hrun; simpl in Hrun;
    try (by simplify_eq);
    match type of Hrun with
    | settle ?c = _ => destruct c; by simplify_eq/=
    end.
Qed.

(** X11: a configuration of one of the five builder types, whose format
    resolves when the type is VECTOR or VECTORTILE, yields a layer; and the
    names of the options each builder passes to its layer and to its
    source, and of the WMS parameters, are these and no others. *)
Theorem layer_option_names h fuel lConf rng :
  (builderType (field "type" lConf) = true ->
   (vectorType (field "type" lConf) = true -> formatResolves h lConf = true) ->
   exists layer,
     (getInstance h fuel lConf rng).1 = Resolved layer /\ is_layer layer = true) /\
  forall layer,
  (getInstance h fuel lConf rng).1 = Resolved layer ->
  ((field "type" lConf === "WMS") = true ->
   dom (options layer) =
     list_to_set ["name"; "lid"; "displayInLayerList"; "selectable";
                  "extent"; "visible"; "opacity"; "source"] /\
   dom (options (option_of "source" layer)) =
     list_to_set ["url"; "params"; "serverType"; "attributions"] /\
   dom (wmsParams layer) = list_to_set ["LAYERS"; "TILED"]) /\
  ((field "type" lConf === "XYZ") = true ->
   dom (options layer) =
     list_to_set ["name"; "lid"; "displayInLayerList"; "selectable";
                  "visible"; "opacity"; "source"] /\
   dom (options (option_of "source" layer)) = list_to_set ["url"]) /\
  ((field "type" lConf === "OSM") = true ->
   dom (options layer) =
     list_to_set ["name"; "lid"; "displayInLayerList"; "selectable";
                  "visible"; "opacity"; "source"] /\
   dom (options (option_of "source" layer)) = ∅) /\
  ((field "type" lConf === "VECTOR") = true ->
   dom (options layer) =
     list_to_set ["name"; "lid"; "displayInLayerList"; "selectable";
                  "extent"; "visible"; "opacity"; "source"; "style";
                  "styleSelected"; "hoverable"; "hoverAttribute"] /\
   dom (options (option_of "source" layer)) =
     list_to_set ["url"; "format"; "attributions"]) /\
  ((field "type" lConf === "VECTORTILE") = true ->
   dom (options layer) =
     list_to_set ["name"; "lid"; "displayInLayerList"; "selectable";
                  "visible"; "opacity"; "source"; "style"; "hoverable";
                  "hoverAttribute"] /\
   dom (options (option_of "source" layer)) =
     list_to_set ["url"; "format"; "attributions"]).
Proof.
  split; [intros; by apply getInstance_produces |].
  intros layer Hrun.
  destruct (resolved_layer h fuel lConf rng layer Hrun)
    as (Hwms & Hxyz & Hosm & Hvector & Htile).
  set (c := (applyLid h lConf rng).1) in *.
  split; [| split; [| split; [| split]]]; intros Hty.
  - rewrite (Hwms Hty). split; [| split].
    + unfold createWmsLayer, literal. cbn [options].
      by rewrite dom_list_to_map_L.
    + assert (Hs : exists l,
        option_of "source" (createWmsLayer c) = New TileWmsSource [literal l] /\
        l.*1 = ["url"; "params"; "serverType"; "attributions"])
        by (eexists; split; reflexivity).
      destruct Hs as (l & -> & Hl). unfold literal. cbn [options].
      by rewrite dom_list_to_map_L, Hl.
    + assert (Hs : exists l,
        option_of "params" (option_of "source" (createWmsLayer c)) = literal l /\
        l.*1 = ["LAYERS"; "TILED"])
        by (eexists; split; reflexivity).
      destruct Hs as (l & Hp & Hl). unfold wmsParams. rewrite Hp.
      unfold literal. by rewrite dom_list_to_map_L, Hl.
  - rewrite (Hxyz Hty). split.
    + unfold createXyzLayer, literal. cbn [options].
      by rewrite dom_list_to_map_L.
    + assert (Hs : exists l,
        option_of "source" (createXyzLayer c) = New XyzSource [literal l] /\
        l.*1 = ["url"])
        by (eexists; split; reflexivity).
      destruct Hs as (l & -> & Hl). unfold literal. cbn [options].
      by rewrite dom_list_to_map_L, Hl.
  - rewrite (Hosm Hty). split.
    + unfold createOsmLayer, literal. cbn [options].
      by rewrite dom_list_to_map_L.
    + assert (Hs : option_of "source" (createOsmLayer c) = New OsmSource [])
        by reflexivity.
      rewrite Hs. cbn [options]. apply dom_empty_L.
  - specialize (Hvector Hty).
    unfold createVectorLayer, mbind, completion_bind in Hvector.
    destruct (newFormat h _ _) as [fmt |];
      cbv beta iota in *; simplify_eq.
    split.
    + unfold literal. cbn [options]. by rewrite dom_list_to_map_L.
    + match goal with
      | |- dom (options (option_of "source" ?layer)) = _ =>
          assert (Hs : exists l,
            option_of "source" layer = New VectorSource [literal l] /\
            l.*1 = ["url"; "format"; "attributions"])
            by (eexists; split; reflexivity)
      end.
      destruct Hs as (l & -> & Hl). unfold literal. cbn [options].
      by rewrite dom_list_to_map_L, Hl.
  - specialize (Htile Hty).
    unfold createVectorTileLayer, mbind, completion_bind in Htile.
    destruct (newFormat h _ _) as [fmt |];
      cbv beta iota in *; simplify_eq.
    split.
    + unfold literal. cbn [options]. by rewrite dom_list_to_map_L.
    + match goal with
      | |- dom (options (option_of "source" ?layer)) = _ =>
          assert (Hs : exists l,
            option_of "source" layer = New VectorTileSource [literal l] /\
            l.*1 = ["url"; "format"; "attributions"])
            by (eexists; split; reflexivity)
      end.
      destruct Hs as (l & -> & Hl). unfold literal. cbn [options].
      by rewrite dom_list_to_map_L, Hl.
Qed.

Lemma layer_option_names_witness :
  (getInstance h0 0 tiles 0).1 = Resolved (createXyzLayer tiles) /\
  dom (options (createXyzLayer tiles)) =
    list_to_set ["name"; "lid"; "displayInLayerList"; "selectable";
                 "visible"; "opacity"; "source"] /\
  dom (options (option_of "source" (createXyzLayer tiles))) = list_to_set ["url"].
Proof.
  assert (Hrun : (getInstance h0 0 tiles 0).1 = Resolved (createXyzLayer tiles))
    by (vm_compute; reflexivity).
  split; [exact Hrun |].
  exact (proj1 (proj2 (proj2 (layer_option_names h0 0 tiles 0) _ Hrun)) eq_refl).
Defined.

(** X12: a configuration of one of the five builder types, whose format
    resolves when the type is VECTOR or VECTORTILE, yields a layer; the
    class of the layer and of the source is fixed by the type, and the
    source options are copied from the configuration: [url] for WMS, XYZ,
    VECTOR and VECTORTILE, [attributions] for all of these but XYZ,
    [serverType] for WMS. *)
Theorem source_of_each_type h fuel lConf rng :
  (builderType (field "type" lConf) = true ->
   (vectorType (field "type" lConf) = true -> formatResolves h lConf = true) ->
   exists layer,
     (getInstance h fuel lConf rng).1 = Resolved layer /\ is_layer layer = true) /\
  forall layer,
  (getInstance h fuel lConf rng).1 = Resolved layer ->
  ((field "type" lConf === "WMS") = true ->
   layerClass layer = Some TileLayer /\
   sourceClass layer = Some TileWmsSource /\
   option_of "url" (option_of "source" layer) = Data (field "url" lConf) /\
   option_of "serverType" (option_of "source" layer) =
     Data (field "serverType" lConf) /\
   option_of "attributions" (option_of "source" layer) =
     Data (field "attributions" lConf)) /\
  ((field "type" lConf === "XYZ") = true ->
   layerClass layer = Some TileLayer /\
   sourceClass layer = Some XyzSource /\
   option_of "url" (option_of "source" layer) = Data (field "url" lConf)) /\
  ((field "type" lConf === "OSM") = true ->
   layerClass layer = Some TileLayer /\
   sourceClass layer = Some OsmSource) /\
  ((field "type" lConf === "VECTOR") = true ->
   layerClass layer = Some VectorLayer /\
   sourceClass layer = Some VectorSource /\
   option_of "url" (option_of "source" layer) = Data (field "url" lConf) /\
   option_of "attributions" (option_of "source" layer) =
     Data (field "attributions" lConf)) /\
  ((field "type" lConf === "VECTORTILE") = true ->
   layerClass layer = Some VectorTileLayer /\
   sourceClass layer = Some VectorTileSource /\
   option_of "url" (option_of "source" layer) = Data (field "url" lConf) /\
   option_of "attributions" (option_of "source" layer) =
     Data (field "attributions" lConf)).
Proof.
  split; [intros; by apply getInstance_produces |].
  intros layer Hrun.
  destruct (resolved_layer h fuel lConf rng layer Hrun)
    as (Hwms & Hxyz & Hosm & Hvector & Htile).
  rewrite <- (applyLid_field h lConf rng "url") by done.
  rewrite <- (applyLid_field h lConf rng "serverType") by done.
  rewrite <- (applyLid_field h lConf rng "attributions") by done.
  set (c := (applyLid h lConf rng).1) in *.
  split; [| split; [| split; [| split]]]; intros Hty.
  - rewrite (Hwms Hty). repeat split; reflexivity.
  - rewrite (Hxyz Hty). repeat split; reflexivity.
  - rewrite (Hosm Hty). repeat split; reflexivity.
  - specialize (Hvector Hty).
    unfold createVectorLayer, mbind, completion_bind in Hvector.
    destruct (newFormat h _ _) as [fmt |];
      cbv beta iota in *; simplify_eq.
    repeat split; reflexivity.
  - specialize (Htile Hty).
    unfold createVectorTileLayer, mbind, completion_bind in Htile.
    destruct (newFormat h _ _) as [fmt |];
      cbv beta iota in *; simplify_eq.
    repeat split; reflexivity.
Qed.

Lemma source_of_each_type_witness :
  (getInstance h0 0 tiles 0).1 = Resolved (createXyzLayer tiles) /\
  layerClass (createXyzLayer tiles) = Some TileLayer /\
  sourceClass (createXyzLayer tiles) = Some XyzSource /\
  option_of "url" (option_of "source" (createXyzLayer tiles)) =
    Data (VStr "https://tiles.example/{z}/{x}/{y}.png").
Proof.
  assert (Hrun : (getInstance h0 0 tiles 0).1 = Resolved (createXyzLayer tiles))
    by (vm_compute; reflexivity).
  split; [exact Hrun |].
  exact (proj1 (proj2 (proj2 (source_of_each_type h0 0 tiles 0) _ Hrun)) eq_refl).
Defined.

(** X13: a configuration of one of the five builder types, whose format
    resolves when the type is VECTOR or VECTORTILE, yields a layer; every
    builder copies [displayInLayerList]; the vector and the vector tile
    builder resolve [style] through the style factory and copy [hoverable]
    and [hoverAttribute]; [styleSelected] is resolved for VECTOR and is not
    passed at all for VECTORTILE. *)
Theorem styles_and_hover h fuel lConf rng :
  builderType (field "type" lConf) = true ->
  ((vectorType (field "type" lConf) = true -> formatResolves h lConf = true) ->
   exists layer,
     (getInstance h fuel lConf rng).1 = Resolved layer /\ is_layer layer = true) /\
  forall layer,
  (getInstance h fuel lConf rng).1 = Resolved layer ->
  option_of "displayInLayerList" layer =
    Data (field "displayInLayerList" lConf) /\
  (vectorType (field "type" lConf) = true ->
   option_of "style" layer = styleInstance h (field "style" lConf) /\
   option_of "hoverable" layer = Data (field "hoverable" lConf) /\
   option_of "hoverAttribute" layer = Data (field "hoverAttribute" lConf)) /\
  ((field "type" lConf === "VECTOR") = true ->
   options layer !! "styleSelected" =
     Some (styleInstance h (field "styleSelected" lConf))) /\
  ((field "type" lConf === "VECTORTILE") = true ->
   options layer !! "styleSelected" = None).
Proof.
  intros Hb. split; [by apply getInstance_produces |].
  intros layer Hrun.
  destruct (resolved_layer h fuel lConf rng layer Hrun)
    as (Hwms & Hxyz & Hosm & Hvector & Htile).
  rewrite <- (applyLid_field h lConf rng "displayInLayerList") by done.
  rewrite <- (applyLid_field h lConf rng "style") by done.
  rewrite <- (applyLid_field h lConf rng "styleSelected") by done.
  rewrite <- (applyLid_field h lConf rng "hoverable") by done.
  rewrite <- (applyLid_field h lConf rng "hoverAttribute") by done.
  set (c := (applyLid h lConf rng).1) in *.
  unfold vectorType.
  apply builderType_cases in Hb as [Hc | [Hc | [Hc | [Hc | Hc]]]];
    rewrite Hc in *; simpl in Hwms, Hxyz, Hosm, Hvector, Htile |- *.
  - rewrite (Hwms eq_refl). repeat split; try done; reflexivity.
  - rewrite (Hxyz eq_refl). repeat split; try done; reflexivity.
  - rewrite (Hosm eq_refl). repeat split; try done; reflexivity.
  - specialize (Hvector eq_refl).
    unfold createVectorLayer, mbind, completion_bind in Hvector.
    destruct (newFormat h _ _) as [fmt |];
      cbv beta iota in *; simplify_eq.
    split; [reflexivity |]. split; [intros _; repeat split; reflexivity |].
    split; [intros _; reflexivity | done].
  - specialize (Htile eq_refl).
    unfold createVectorTileLayer, mbind, completion_bind in Htile.
    destruct (newFormat h _ _) as [fmt |];
      cbv beta iota in *; simplify_eq.
    split; [reflexivity |]. split; [intros _; repeat split; reflexivity |].
    split; [done | intros _; reflexivity].
Qed.

Lemma styles_and_hover_witness :
  builderType (field "type" styled) = true /\
  exists layer,
    (getInstance h0 0 styled 0).1 = Resolved layer /\
    option_of "style" layer =
      styleInstance h0 (VObj (conf [("strokeColor", VStr "red")])) /\
    option_of "hoverable" layer = Data (VBool true) /\
    option_of "hoverAttribute" layer = Data (VStr "owner") /\
    options layer !! "styleSelected" = Some (styleInstance h0 VUndefined).
Proof.
  split; [reflexivity |].
  destruct (styles_and_hover h0 0 styled 0 eq_refl) as [Hproduced Hoptions].
  destruct (Hproduced (fun _ => eq_refl)) as (layer & Hrun & _).
  exists layer. split; [exact Hrun |].
  destruct (Hoptions layer Hrun) as (_ & Hvector & Hselected & _).
  destruct (Hvector eq_refl) as (Hstyle & Hhover & Hattr).
  split; [exact Hstyle |]. split; [exact Hhover |]. split; [exact Hattr |].
  exact (Hselected eq_refl).
Defined.

(** X14: for a VECTORTILE configuration whose [format] names an entry of
    the table, the source's format is that entry's constructor called with
    no argument: [formatConfig] is not passed on. *)
Theorem vector_tile_format_without_config h fuel lConf rng name c :
  (field "type" lConf === "VECTORTILE") = true ->
  field "format" lConf = VStr name ->
  formatMapping !! name = Some c ->
  exists layer,
    (getInstance h fuel lConf rng).1 = Resolved layer /\
    layerClass layer = Some VectorTileLayer /\
    sourceClass layer = Some VectorTileSource /\
    option_of "format" (option_of "source" layer) = New c [].
Proof.
  intros Hty Hformat Hentry.
  rewrite getInstance_builder by (eapply builderType_intro; [done | set_solver]).
  unfold built. rewrite applyLid_type. simpl.
  apply strictEq_true in Hty. rewrite Hty. simpl.
  unfold createVectorTileLayer, newFormat.
  rewrite (applyLid_field h lConf rng "format") by done.
  rewrite Hformat. simpl.
  unfold formatMapping_get. rewrite Hentry. simpl.
  eexists. split; [reflexivity |]. repeat split; reflexivity.
Qed.

Lemma vector_tile_format_without_config_witness :
  (field "type" tiled === "VECTORTILE") = true /\
  field "format" tiled = VStr "MVT" /\
  field "formatConfig" tiled = VObj ∅ /\
  formatMapping !! "MVT" = Some MvtFormat /\
  exists layer,
    (getInstance h0 0 tiled 0).1 = Resolved layer /\
    option_of "format" (option_of "source" layer) = New MvtFormat [].
Proof.
  split; [reflexivity |]. split; [reflexivity |]. split; [reflexivity |].
  split; [reflexivity |].
  destruct (vector_tile_format_without_config h0 0 tiled 0 "MVT" MvtFormat
              eq_refl eq_refl eq_refl) as (layer & Hrun & _ & _ & Hformat).
  exists layer. split; [exact Hrun | exact Hformat].
Defined.
